(** * kcc-go: the SOAP envelope codec, the client factory and the socket client

    A shallow embedding of [fakesoap.go]:
    - [soapEnvelope] and [parseSOAPResponse], the envelope codec;
    - [NewSOAPClient], the factory that picks a client by URI scheme;
    - [SOAPSocketClient_DoRequest], the request loop over a pooled unix socket.

    Go strings and byte buffers are [string] (sequences of 8 bit characters).
    Calls into packages that are not part of the program ([encoding/xml],
    [net/url], [gncp]) are interfaces, given as type classes; the results
    on the program hold for all their instances, except the round trip
    through the envelope, which is shown for the reader of module
    [sample].  A Go [error] result is the [error] type; a call returning
    [(T, error)] returns a sum; a call that can panic returns an
    [Outcome]. *)

From Stdlib Require Import ZArith Ascii String List Lia.
From stdpp Require Import base tactics option list strings.

Local Open Scope string_scope.
Local Open Scope list_scope.

(** ** Errors *)

(** The error values the program creates with [fmt.Errorf], and those it
    passes on from a library call. *)
Inductive error : Type :=
| LibError (msg : string)          (* returned by a library, passed on as it is *)
| ErrUnmarshalBody                 (* parseSOAPResponse, after the token loop *)
| ErrInvalidScheme (scheme : string)
| ErrOpenSocket (cause : error)
| ErrReadSocket (cause : error)
| ErrStatus (code : Z).

(** Decimal rendering of a status code, as [%v] prints an [int]. *)
Definition digit (n : nat) : ascii := ascii_of_nat (48 + n).

Fixpoint decimal_aux (fuel : nat) (n : nat) (acc : string) : string :=
  match fuel with
  | O => acc
  | S fuel' =>
      let acc' := String (digit (n mod 10)) acc in
      match n / 10 with
      | O => acc'
      | q => decimal_aux fuel' q acc'
      end
  end.

Definition decimal (z : Z) : string :=
  let n := Z.abs_nat z in
  let s := decimal_aux (S n) n EmptyString in
  if (z <? 0)%Z then String "-"%char s else s.

(** The text of an error, [err.Error()]. *)
Fixpoint Error (e : error) : string :=
  match e with
  | LibError msg => msg
  | ErrUnmarshalBody => "failed to unmarshal SOAP response body"
  | ErrInvalidScheme scheme => "invalid scheme '" +:+ scheme +:+ "' for SOAP client"
  | ErrOpenSocket cause => "failed to open unix socket: " +:+ Error cause
  | ErrReadSocket cause => "failed to read from unix socket: " +:+ Error cause
  | ErrStatus code => "unexpected http response status: " +:+ decimal code
  end.

(** ** The envelope *)

(** The constants hold double quote characters; they are written here with
    apostrophes, which [quoted] turns into double quotes.  Neither constant
    holds an apostrophe of its own. *)
Definition double_quote : ascii := ascii_of_nat 34.

Fixpoint quoted (s : string) : string :=
  match s with
  | EmptyString => EmptyString
  | String c rest =>
      String (if Ascii.eqb c "'"%char then double_quote else c) (quoted rest)
  end.

Definition line_feed : string := String (ascii_of_nat 10) EmptyString.

(** First line of [soapHeader]: the XML declaration. *)
Definition xmlDeclaration : string :=
  Eval vm_compute in quoted "<?xml version='1.0' encoding='UTF-8'?>".

(** Second line of [soapHeader]: the opening tags of Envelope and Body. *)
Definition envelopeOpen : string :=
  Eval vm_compute in quoted
  "<SOAP-ENV:Envelope xmlns:SOAP-ENV='http://schemas.xmlsoap.org/soap/envelope/' xmlns:SOAP-ENC='http://schemas.xmlsoap.org/soap/encoding/' xmlns:xsi='http://www.w3.org/2001/XMLSchema-instance' xmlns:xsd='http://www.w3.org/2001/XMLSchema' xmlns:xop='http://www.w3.org/2004/08/xop/include' xmlns:xmlmime='http://www.w3.org/2004/11/xmlmime' xmlns:ns='urn:zarafa'><SOAP-ENV:Body SOAP-ENV:encodingStyle='http://schemas.xmlsoap.org/soap/encoding/'>".

(** [soapHeader] is a raw string literal over two source lines: the line
    break after the XML declaration is part of the constant. *)
Definition soapHeader : string :=
  Eval vm_compute in xmlDeclaration +:+ line_feed +:+ envelopeOpen.

Definition soapFooter : string := "</SOAP-ENV:Body></SOAP-ENV:Envelope>".

Definition soapUserAgent : string := "kcc-go-fakesoap".

(** [soapEnvelope]: three [WriteString] calls on a fresh buffer. *)
Definition soapEnvelope (payload : string) : string :=
  let b := EmptyString in
  let b := b +:+ soapHeader in
  let b := b +:+ payload in
  let b := b +:+ soapFooter in
  b.

(** The header as the specification's External Interfaces section prints
    it: the declaration directly followed by the Envelope tag. *)
Definition spec_soapHeader : string :=
  Eval vm_compute in xmlDeclaration +:+ envelopeOpen.

(** ** encoding/xml: tokens and the decoder interface *)

Module xml.

Record Name : Type := { Space : string; Local : string }.

Record Attr : Type := { AttrName : Name; Value : string }.

(** The token types of the package; [StartElement] carries the element
    name and its attributes. *)
Inductive Token : Type :=
| StartElement (name : Name) (attr : list Attr)
| EndElement (name : Name)
| CharData (data : string)
| Comment (data : string)
| ProcInst (target inst : string)
| Directive (data : string).

(** A decoder over a finite input, seen through its [Token] method: the
    tokens it still returns, in order, and the error it returns once they
    are used up ([io.EOF], or a syntax error where the input is
    malformed).  The error is sticky. *)
Record Decoder : Type := { pending : list Token; failure : error }.

(** [d.Token()]: the next token and a nil error, or a nil token and the
    error. *)
Definition Decoder_Token (d : Decoder) : option Token * option error * Decoder :=
  match pending d with
  | t :: rest => (Some t, None, {| pending := rest; failure := failure d |})
  | [] => (None, Some (failure d), d)
  end.

Definition is_start (t : Token) : bool :=
  match t with StartElement _ _ => true | _ => false end.

(** A start element whose local name is Body, compared as the program
    compares it: byte by byte. *)
Definition is_body_start (t : Token) : bool :=
  match t with
  | StartElement name _ => String.eqb (Local name) "Body"
  | _ => false
  end.

End xml.

(** What the program uses of the package: [xml.NewDecoder] over the bytes of
    a reader, and [Decoder.DecodeElement] into a destination of type
    [V], which returns the destination as the call left it and the error. *)
Class XMLPackage (V : Type) : Type := {
  NewDecoder : string -> xml.Decoder;
  DecodeElement :
    xml.Decoder -> V -> xml.Name -> list xml.Attr -> V * option error
}.

(** ** parseSOAPResponse *)

(** The [for] loop of [parseSOAPResponse] with its flag [match].  Every pass
    calls [decoder.Token()] and drops the error; a nil token leaves the loop
    and the function returns the error made after it.  A start element is
    decoded when the flag is set, and sets the flag when its local name is
    Body; other tokens are passed over. *)
Fixpoint tokenLoop {V : Type} `{XMLPackage V}
    (match_ : bool) (pending : list xml.Token) (failure : error) (v : V)
    : V * option error :=
  match pending with
  | [] => (v, Some ErrUnmarshalBody)
  | t :: rest =>
      match t with
      | xml.StartElement name attr =>
          if match_ then
            DecodeElement {| xml.pending := rest; xml.failure := failure |} v name attr
          else if String.eqb (xml.Local name) "Body" then
            tokenLoop true rest failure v
          else
            tokenLoop match_ rest failure v
      | _ => tokenLoop match_ rest failure v
      end
  end.

Definition parseSOAPResponse {V : Type} `{XMLPackage V} (data : string) (v : V)
    : V * option error :=
  let decoder := NewDecoder data in
  tokenLoop false (xml.pending decoder) (xml.failure decoder) v.

(** The specification's reading of the scan: the first start element after
    the first start element whose local name is Body, with the tokens that
    follow it; [None] when the tokens end before. *)
Fixpoint spec_after_body (toks : list xml.Token) : option (list xml.Token) :=
  match toks with
  | [] => None
  | xml.StartElement name _ :: rest =>
      if String.eqb (xml.Local name) "Body" then Some rest else spec_after_body rest
  | _ :: rest => spec_after_body rest
  end.

Fixpoint spec_first_start (toks : list xml.Token)
    : option (xml.Name * list xml.Attr * list xml.Token) :=
  match toks with
  | [] => None
  | xml.StartElement name attr :: rest => Some (name, attr, rest)
  | _ :: rest => spec_first_start rest
  end.

Definition spec_body_child (toks : list xml.Token)
    : option (xml.Name * list xml.Attr * list xml.Token) :=
  match spec_after_body toks with
  | Some rest => spec_first_start rest
  | None => None
  end.


(** ** net/url, net, net/http: the values the program handles *)

Module url.

(** The fields of [url.URL] without the user information. *)
Record URL : Type := {
  Scheme : string;
  Opaque : string;
  Host : string;
  Path : string;
  RawQuery : string;
  Fragment : string
}.

End url.

(** A call returns a value or panics. *)
Inductive Outcome (A : Type) : Type :=
| Returned (a : A)
| Panicked.
Arguments Returned {A} a.
Arguments Panicked {A}.

(** What the program uses of [net/url]: the function [Parse], behind the
    method of that name which [NewSOAPClient] calls on its nil argument;
    [resolvePath], with which [ResolveReference] removes the dot segments
    of a path; and the method [String]. *)
Class URLPackage : Type := {
  Parse : string -> url.URL + error;
  resolvePath : string -> string;
  URL_String : url.URL -> string
}.

(** [ResolveReference] on the nil receiver.  The method copies the
    reference; when the reference has no scheme it reads the scheme of its
    receiver, and reading a field of the nil receiver panics.  When the
    reference has a scheme the method returns the copy with the path
    resolved and reads nothing of the receiver. *)
Definition URL_ResolveReference_nil `{URLPackage} (ref : url.URL) : Outcome url.URL :=
  if String.eqb (url.Scheme ref) EmptyString then Panicked
  else
    Returned {| url.Scheme := url.Scheme ref; url.Opaque := url.Opaque ref;
                url.Host := url.Host ref; url.Path := resolvePath (url.Path ref);
                url.RawQuery := url.RawQuery ref; url.Fragment := url.Fragment ref |}.

(** The method [Parse] on the nil receiver: it parses the reference,
    returns the error of parsing, and otherwise resolves the reference
    against its receiver. *)
Definition URL_Parse_nil `{URLPackage} (ref : string) : Outcome (url.URL + error) :=
  match Parse ref with
  | inr err => Returned (inr err)
  | inl refURL =>
      match URL_ResolveReference_nil refURL with
      | Returned u => Returned (inl u)
      | Panicked => Panicked
      end
  end.

Module net.

(** [net.Dialer], with durations in nanoseconds. *)
Record Dialer : Type := { Timeout : Z; KeepAlive : Z; DualStack : bool }.

(** A connection handle. *)
Definition Conn : Type := nat.

(** A call [dialer.Dial(network, address)] that has not been made yet. *)
Record DialCall : Type := {
  dial_with : Dialer;
  network : string;
  address : string
}.

End net.

Module http.

Definition StatusOK : Z := 200.

(** [http.Transport] and [http.Client] with the fields [http.go] sets;
    durations in nanoseconds. *)
Record Transport : Type := {
  DialContext : net.Dialer;
  MaxIdleConns : Z;
  MaxIdleConnsPerHost : Z;
  IdleConnTimeout : Z;
  TLSHandshakeTimeout : Z;
  ExpectContinueTimeout : Z
}.

Record Client : Type := { Timeout : Z; Transport_ : Transport }.

(** [http.Header]: a map from canonical header names to their values. *)
Definition Header : Type := list (string * list string).

(** [h.Get(key)] for a key in canonical form: the first value stored
    under the key, the empty string when there is none. *)
Fixpoint Header_Get (h : Header) (key : string) : string :=
  match h with
  | [] => EmptyString
  | (k, vs) :: rest =>
      if String.eqb k key then
        match vs with
        | v :: _ => v
        | [] => EmptyString
        end
      else Header_Get rest key
  end.

(** A response as [http.ReadResponse] returns it; [Body] is what the body
    reader yields. *)
Record Response : Type := {
  StatusCode : Z;
  Header_ : Header;
  Body : string
}.

End http.

(** ** gncp: the connection pool interface *)

(** [gncp.NewPool] and the methods of [gncp.ConnPool] the program calls.
    [Conn_Close] is [Close] on a connection handed out by the pool, which
    gives the connection back to the pool.  The pool is a shared object;
    every operation takes its state and returns the new one. *)
Class ConnPool (P : Type) : Type := {
  NewPool : Z -> Z -> net.DialCall -> P + error;
  GetWithTimeout : Z -> P -> (net.Conn + error) * P;
  Remove : net.Conn -> P -> P;
  Conn_Close : net.Conn -> P -> P
}.

(** ** The package-level variables *)

(** [DefaultHTTPClient] is declared in [http.go]; the other variables are
    declared outside the files at hand and are parameters here. *)
Record PackageVars : Type := {
  DefaultURI : string;
  DefaultHTTPClient : http.Client;
  DefaultUnixDialer : net.Dialer;
  DefaultUnixMaxConnections : Z
}.

(** ** The clients *)

Record SOAPHTTPClient : Type := {
  Client : http.Client;
  URI : string
}.

Record SOAPSocketClient (P : Type) : Type := {
  Dialer : net.Dialer;
  Pool : P;
  Path : string
}.
Arguments Dialer {P} _.
Arguments Pool {P} _.
Arguments Path {P} _.

(** The interface [SOAPClient] has these two implementations. *)
Inductive SOAPClient (P : Type) : Type :=
| HTTPClient (c : SOAPHTTPClient)
| SocketClient (c : SOAPSocketClient P).
Arguments HTTPClient {P} c.
Arguments SocketClient {P} c.

(** [sc.connect], the dial function handed to the pool: it dials the unix
    socket at [sc.Path] with [sc.Dialer]. *)
Definition connect (dialer : net.Dialer) (path : string) : net.DialCall :=
  {| net.dial_with := dialer; net.network := "unix"; net.address := path |}.

(** ** NewSOAPClient *)

Definition NewSOAPClient {P : Type} `{URLPackage} `{ConnPool P}
    (vars : PackageVars) (uri : option url.URL) : Outcome (SOAPClient P + error) :=
  let parsed :=
    match uri with
    | None => URL_Parse_nil (DefaultURI vars)
    | Some u => Returned (inl u)
    end in
  match parsed with
  | Panicked => Panicked
  | Returned (inr err) => Returned (inr err)
  | Returned (inl uri) =>
      let http_case :=
        inl (HTTPClient {| Client := DefaultHTTPClient vars; URI := URL_String uri |}) in
      Returned
        (if String.eqb (url.Scheme uri) "https" then http_case
         else if String.eqb (url.Scheme uri) "http" then http_case
         else if String.eqb (url.Scheme uri) "file" then
           let dialer := DefaultUnixDialer vars in
           let path := url.Path uri in
           match NewPool 0 (DefaultUnixMaxConnections vars) (connect dialer path) with
           | inr err => inr err
           | inl pool => inl (SocketClient {| Dialer := dialer; Pool := pool; Path := path |})
           end
         else inr (ErrInvalidScheme (url.Scheme uri)))
  end.

(** ** SOAPSocketClient.DoRequest *)

(** What the peer does in one pass of the loop, once a connection is at
    hand: the write fails, the write succeeds and reading the response
    fails, or a response is read. *)
Inductive NetOutcome : Type :=
| WriteFails (err : error)
| ReadFails (err : error)
| Responds (resp : http.Response).

(** The calls a request makes on the pool, the connection and the response
    body, in the order they happen. *)
Inductive Event : Type :=
| EvGet (c : net.Conn)
| EvGetFailed
| EvWrite (c : net.Conn) (data : string)
| EvReadResponse (c : net.Conn)
| EvParse
| EvRemove (c : net.Conn)
| EvBodyClose
| EvConnClose (c : net.Conn).

(** The result of a run: what [DoRequest] returned, if it did return, with
    the destination as the call left it; the pool; the calls made. *)
Record Run (P V : Type) : Type := {
  returned : option (V * option error);
  pool_after : P;
  events : list Event
}.
Arguments returned {P V} _.
Arguments pool_after {P V} _.
Arguments events {P V} _.

Definition prepend {P V : Type} (evs : list Event) (r : Run P V) : Run P V :=
  {| returned := returned r; pool_after := pool_after r; events := evs ++ events r |}.

(** The function deferred after a response was read: close the body, then
    hand the connection back or remove it. *)
Definition deferred_cleanup {P : Type} `{ConnPool P}
    (canReuseConnection : bool) (c : net.Conn) (pool : P) : P * list Event :=
  if canReuseConnection then (Conn_Close c pool, [EvBodyClose; EvConnClose c])
  else (Remove c pool, [EvBodyClose; EvRemove c]).

(** The client with its pool in a new state: the pool is an object the
    client points to, and the calls of a request change it. *)
Definition with_pool {P : Type} (sc : SOAPSocketClient P) (pool : P)
    : SOAPSocketClient P :=
  {| Dialer := Dialer sc; Pool := pool; Path := Path sc |}.

(** One pass of the loop that ends in a failed write: the calls made. *)
Definition failed_pass (payload : string) (c : net.Conn) : list Event :=
  [EvGet c; EvWrite c (soapEnvelope payload); EvRemove c].

(** The loop of [DoRequest].  [peer] lists what the peer does in the passes
    to come; a pass that finds the list empty stands for a request that is
    still running, and returns nothing.  The deadlines set on the connection
    decide which of the outcomes the peer produces and are not modelled
    apart from them. *)
Fixpoint SOAPSocketClient_DoRequest {P V : Type} `{ConnPool P} `{XMLPackage V}
    (sc : SOAPSocketClient P) (payload : string) (peer : list NetOutcome)
    (v : V) : Run P V :=
  match GetWithTimeout (net.Timeout (Dialer sc)) (Pool sc) with
  | (inr err, pool) =>
      {| returned := Some (v, Some (ErrOpenSocket err));
         pool_after := pool;
         events := [EvGetFailed] |}
  | (inl c, pool) =>
      let body := soapEnvelope payload in
      match peer with
      | [] =>
          {| returned := None; pool_after := pool; events := [EvGet c] |}
      | WriteFails _ :: peer' =>
          prepend [EvGet c; EvWrite c body; EvRemove c]
            (SOAPSocketClient_DoRequest (with_pool sc (Remove c pool)) payload peer' v)
      | ReadFails err :: _ =>
          {| returned := Some (v, Some (ErrReadSocket err));
             pool_after := Remove c pool;
             events := [EvGet c; EvWrite c body; EvReadResponse c; EvRemove c] |}
      | Responds resp :: _ =>
          let canReuseConnection :=
            String.eqb (http.Header_Get (http.Header_ resp) "Connection") "keep-alive" in
          let '(result, work) :=
            if negb (Z.eqb (http.StatusCode resp) http.StatusOK) then
              ((v, Some (ErrStatus (http.StatusCode resp))), [])
            else (parseSOAPResponse (http.Body resp) v, [EvParse]) in
          let '(pool, cleanup) := deferred_cleanup canReuseConnection c pool in
          {| returned := Some result;
             pool_after := pool;
             events := [EvGet c; EvWrite c body; EvReadResponse c] ++ work ++ cleanup |}
      end
  end.

(** The pool after [n] passes in which a connection is obtained and the
    write on it fails; [None] when one of the [n] acquisitions fails. *)
Fixpoint after_write_failures {P : Type} `{ConnPool P}
    (timeout : Z) (n : nat) (pool : P) : option P :=
  match n with
  | O => Some pool
  | S n' =>
      match GetWithTimeout timeout pool with
      | (inl c, pool) => after_write_failures timeout n' (Remove c pool)
      | (inr _, _) => None
      end
  end.

(** The number of connections a run removed from the pool, and the number
    of acquisitions it made. *)
Definition is_remove (e : Event) : bool :=
  match e with EvRemove _ => true | _ => false end.

Definition is_get (e : Event) : bool :=
  match e with EvGet _ | EvGetFailed => true | _ => false end.

Definition removals (evs : list Event) : nat := length (filter (fun e => is_remove e = true) evs).

Definition acquisitions (evs : list Event) : nat := length (filter (fun e => is_get e = true) evs).

(** ** The connection pool of the specification *)

Module SpecPool.

(** Modelled from the spec: the ConnectionPool of section 4.5 (package
    [gncp] is not among the sources).  The pool is built from an initial
    size, a maximum capacity and a dial function.  A connection is idle
    (in the pool), acquired (owned by one request) or removed (no longer
    tracked).  [dials] lists the answers the dial function gives to the
    calls to come. *)
Record t : Type := {
  capacity : nat;
  idle : list net.Conn;
  acquired : list net.Conn;
  dials : list (net.Conn + error)
}.

(** Modelled from the spec: the TimeoutError of acquire. *)
Definition errTimeout : error := LibError "timeout".

Fixpoint remove_one (c : net.Conn) (l : list net.Conn) : list net.Conn :=
  match l with
  | [] => []
  | x :: rest => if Nat.eqb x c then rest else x :: remove_one c rest
  end.

Definition holds (c : net.Conn) (l : list net.Conn) : bool :=
  existsb (Nat.eqb c) l.

(** Modelled from the spec: acquire hands out an idle connection, or
    dials a new one while capacity allows, or ends in the timeout error
    and leaves the pool as it is. *)
Definition acquire (p : t) : (net.Conn + error) * t :=
  match idle p with
  | c :: rest =>
      (inl c, {| capacity := capacity p; idle := rest;
                 acquired := c :: acquired p; dials := dials p |})
  | [] =>
      if Nat.ltb (length (acquired p)) (capacity p) then
        match dials p with
        | inl c :: later =>
            (inl c, {| capacity := capacity p; idle := [];
                       acquired := c :: acquired p; dials := later |})
        | inr _ :: later =>
            (inr errTimeout, {| capacity := capacity p; idle := [];
                                acquired := acquired p; dials := later |})
        | [] => (inr errTimeout, p)
        end
      else (inr errTimeout, p)
  end.

(** Modelled from the spec: release returns an acquired connection to
    the idle set. *)
Definition release (c : net.Conn) (p : t) : t :=
  if holds c (acquired p) then
    {| capacity := capacity p; idle := idle p ++ [c];
       acquired := remove_one c (acquired p); dials := dials p |}
  else p.

(** Modelled from the spec: remove closes an acquired connection and
    drops it from the accounting, which frees capacity for a later
    dial. *)
Definition remove (c : net.Conn) (p : t) : t :=
  if holds c (acquired p) then
    {| capacity := capacity p; idle := idle p;
       acquired := remove_one c (acquired p); dials := dials p |}
  else p.

(** Modelled from the spec: the initial size; the first [n] answers of
    the dial function become idle connections, a dial that fails gives
    its error. *)
Fixpoint fill (n : nat) (answers : list (net.Conn + error)) (conns : list net.Conn)
    : list net.Conn * list (net.Conn + error) + error :=
  match n with
  | O => inl (conns, answers)
  | S n' =>
      match answers with
      | inl c :: later => fill n' later (conns ++ [c])
      | inr err :: _ => inr err
      | [] => inr errTimeout
      end
  end.

(** Modelled from the spec: a pool of the given capacity holding
    [initial] dialed connections; with an initial size of 0 nothing is
    dialed and the pool starts empty. *)
Definition new (os : net.DialCall -> list (net.Conn + error))
    (initial capacity_ : Z) (dial : net.DialCall) : t + error :=
  match fill (Z.to_nat initial) (os dial) [] with
  | inl (conns, later) =>
      inl {| capacity := Z.to_nat capacity_; idle := conns;
             acquired := []; dials := later |}
  | inr err => inr err
  end.

(** Modelled from the spec: a call on the pool by one of the requests
    that share it. *)
Inductive Call : Type :=
| CallAcquire
| CallRelease (c : net.Conn)
| CallRemove (c : net.Conn).

Definition call (p : t) (k : Call) : t :=
  match k with
  | CallAcquire => snd (acquire p)
  | CallRelease c => release c p
  | CallRemove c => remove c p
  end.

(** Modelled from the spec: the pool synchronises its operations
    (section 5), so the calls of concurrent requests take effect one at a
    time; an interleaving is the list of the calls in the order they take
    effect. *)
Definition interleaving (calls : list Call) (p : t) : t :=
  fold_left call calls p.

(** Modelled from the spec: the connections the pool tracks, acquired
    ones and idle ones. *)
Definition tracked (p : t) : nat := length (acquired p) + length (idle p).

End SpecPool.

(** The pool of the specification as an instance of the interface; [os]
    gives, for a dial function, the answers the system will give to it. *)
Definition spec_pool (os : net.DialCall -> list (net.Conn + error))
    : ConnPool SpecPool.t :=
  {| NewPool := SpecPool.new os;
     GetWithTimeout := fun _ => SpecPool.acquire;
     Remove := SpecPool.remove;
     Conn_Close := SpecPool.release |}.

(** ** Readers used to evaluate the program on given inputs *)

(** The packages above are interfaces.  To run [parseSOAPResponse] and
    [NewSOAPClient] on an input, this section gives one instance of each: a
    reader for documents made of tags with attributes, text, processing
    instructions, comments and directives, without entity references and
    CDATA sections, which resolves name space prefixes the way
    [Decoder.Token] does; and a reader of URIs of the form
    scheme://host/path and of plain paths.  The theorems hold for every
    instance unless they name these; these serve to evaluate them. *)
Module sample.

Definition io_EOF : error := LibError "EOF".

Definition SyntaxError (msg : string) : error :=
  LibError ("XML syntax error: " +:+ msg).

Definition is_space (c : ascii) : bool :=
  let n := nat_of_ascii c in
  Nat.eqb n 32 || Nat.eqb n 9 || Nat.eqb n 10 || Nat.eqb n 13.

Definition is_quote (c : ascii) : bool :=
  Ascii.eqb c double_quote || Ascii.eqb c "'"%char.

Definition is_name_char (c : ascii) : bool :=
  negb (is_space c || is_quote c || Ascii.eqb c "<"%char || Ascii.eqb c ">"%char
        || Ascii.eqb c "/"%char || Ascii.eqb c "="%char || Ascii.eqb c "?"%char
        || Ascii.eqb c "!"%char).

(** The longest prefix whose characters satisfy [p], and what follows. *)
Fixpoint span (p : ascii -> bool) (s : string) : string * string :=
  match s with
  | EmptyString => (EmptyString, EmptyString)
  | String c rest =>
      if p c then let '(a, b) := span p rest in (String c a, b)
      else (EmptyString, s)
  end.

Fixpoint drop (n : nat) (s : string) : string :=
  match n, s with
  | S n', String _ rest => drop n' rest
  | _, _ => s
  end.

(** The text before the first occurrence of [stop], and the text after
    it. *)
Fixpoint split_at (stop s : string) : option (string * string) :=
  if String.prefix stop s then Some (EmptyString, drop (String.length stop) s)
  else
    match s with
    | EmptyString => None
    | String c rest =>
        match split_at stop rest with
        | Some (a, b) => Some (String c a, b)
        | None => None
        end
    end.

Definition skip_space (s : string) : string := snd (span is_space s).

(** A name as written, split at its colon. *)
Definition nsname (s : string) : xml.Name :=
  match split_at ":" s with
  | Some (prefix, local) => {| xml.Space := prefix; xml.Local := local |}
  | None => {| xml.Space := EmptyString; xml.Local := s |}
  end.

(** The attributes of a start tag up to its closing bracket; the flag
    tells a tag that closes itself. *)
Fixpoint read_attrs (fuel : nat) (s : string)
    : option (list xml.Attr * bool * string) :=
  match fuel with
  | O => None
  | S fuel' =>
      let s := skip_space s in
      if String.prefix "/>" s then Some ([], true, drop 2 s)
      else if String.prefix ">" s then Some ([], false, drop 1 s)
      else
        let '(name, s1) := span is_name_char s in
        match name, s1 with
        | String _ _, String eq (String q s2) =>
            if Ascii.eqb eq "="%char && is_quote q then
              match split_at (String q EmptyString) s2 with
              | Some (value, s3) =>
                  match read_attrs fuel' s3 with
                  | Some (attrs, closes, rest) =>
                      Some ({| xml.AttrName := nsname name; xml.Value := value |} :: attrs,
                            closes, rest)
                  | None => None
                  end
              | None => None
              end
            else None
        | _, _ => None
        end
  end.

Definition push (t : xml.Token) (r : list xml.Token * error) : list xml.Token * error :=
  (t :: fst r, snd r).

(** The tokens of a document with names as written. *)
Fixpoint raw_tokens (fuel : nat) (s : string) : list xml.Token * error :=
  match fuel, s with
  | _, EmptyString => ([], io_EOF)
  | O, _ => ([], SyntaxError "input too long")
  | S fuel', _ =>
      if String.prefix "<?" s then
        match split_at "?>" (drop 2 s) with
        | Some (body, rest) =>
            let '(target, inst) := span is_name_char body in
            push (xml.ProcInst target (skip_space inst)) (raw_tokens fuel' rest)
        | None => ([], SyntaxError "unexpected EOF")
        end
      else if String.prefix "<!--" s then
        match split_at "-->" (drop 4 s) with
        | Some (body, rest) => push (xml.Comment body) (raw_tokens fuel' rest)
        | None => ([], SyntaxError "unexpected EOF")
        end
      else if String.prefix "<!" s then
        match split_at ">" (drop 2 s) with
        | Some (body, rest) => push (xml.Directive body) (raw_tokens fuel' rest)
        | None => ([], SyntaxError "unexpected EOF")
        end
      else if String.prefix "</" s then
        match split_at ">" (drop 2 s) with
        | Some (name, rest) =>
            push (xml.EndElement (nsname (fst (span is_name_char name))))
                 (raw_tokens fuel' rest)
        | None => ([], SyntaxError "unexpected EOF")
        end
      else if String.prefix "<" s then
        let '(name, s1) := span is_name_char (drop 1 s) in
        match name, read_attrs (S (String.length s1)) s1 with
        | String _ _, Some (attrs, closes, rest) =>
            let n := nsname name in
            push (xml.StartElement n attrs)
                 (if closes : bool then push (xml.EndElement n) (raw_tokens fuel' rest)
                  else raw_tokens fuel' rest)
        | _, _ => ([], SyntaxError "expected element name after <")
        end
      else
        let '(text, rest) := span (fun c => negb (Ascii.eqb c "<"%char)) s in
        push (xml.CharData text) (raw_tokens fuel' rest)
  end.

(** Name space bindings, the latest first. *)
Definition Bindings : Type := list (string * string).

Fixpoint lookup_ns (prefix : string) (ns : Bindings) : option string :=
  match ns with
  | [] => None
  | (p, uri) :: rest => if String.eqb p prefix then Some uri else lookup_ns prefix rest
  end.

Definition xmlURL : string := "http://www.w3.org/XML/1998/namespace".

(** [Decoder.translate]. *)
Definition translate (ns : Bindings) (isElementName : bool) (n : xml.Name) : xml.Name :=
  let space := xml.Space n in
  if String.eqb space "xmlns" then n
  else if String.eqb space EmptyString && negb isElementName then n
  else if String.eqb space EmptyString && String.eqb (xml.Local n) "xmlns" then n
  else
    let space := if String.eqb space "xml" then xmlURL else space in
    match lookup_ns space ns with
    | Some uri => {| xml.Space := uri; xml.Local := xml.Local n |}
    | None => {| xml.Space := space; xml.Local := xml.Local n |}
    end.

(** The bindings a start tag declares, added to those in force. *)
Fixpoint bind (attrs : list xml.Attr) (ns : Bindings) : Bindings :=
  match attrs with
  | [] => ns
  | a :: rest =>
      let n := xml.AttrName a in
      let ns :=
        if String.eqb (xml.Space n) "xmlns" then (xml.Local n, xml.Value a) :: ns
        else if String.eqb (xml.Space n) EmptyString && String.eqb (xml.Local n) "xmlns"
        then (EmptyString, xml.Value a) :: ns
        else ns in
      bind rest ns
  end.

Definition name_eqb (a b : xml.Name) : bool :=
  String.eqb (xml.Space a) (xml.Space b) && String.eqb (xml.Local a) (xml.Local b).

(** The tokens as [Decoder.Token] returns them: names translated, end
    tags checked against the open elements. *)
Fixpoint resolve (toks : list xml.Token) (ns : Bindings)
    (open : list (xml.Name * Bindings)) (fin : error) : list xml.Token * error :=
  match toks with
  | [] =>
      match open with
      | [] => ([], fin)
      | _ :: _ => ([], SyntaxError "unexpected EOF")
      end
  | xml.StartElement name attrs :: rest =>
      let ns' := bind attrs ns in
      let attrs' :=
        map (fun a => {| xml.AttrName := translate ns' false (xml.AttrName a);
                         xml.Value := xml.Value a |}) attrs in
      push (xml.StartElement (translate ns' true name) attrs')
           (resolve rest ns' ((name, ns) :: open) fin)
  | xml.EndElement name :: rest =>
      match open with
      | (opened, saved) :: open' =>
          if name_eqb opened name then
            push (xml.EndElement (translate ns true name)) (resolve rest saved open' fin)
          else ([], SyntaxError "element closed by another end tag")
      | [] => ([], SyntaxError "unexpected end element")
      end
  | t :: rest => push t (resolve rest ns open fin)
  end.

Definition NewDecoder (data : string) : xml.Decoder :=
  let '(toks, fin) := raw_tokens (S (String.length data)) data in
  let '(toks, fin) := resolve toks [] [] fin in
  {| xml.pending := toks; xml.failure := fin |}.

(** A destination that takes the name of the element and the character
    data directly inside it. *)
Record Element : Type := { XMLName : xml.Name; Chardata : string }.

Fixpoint read_element (depth : nat) (toks : list xml.Token) (acc : string)
    : option string :=
  match toks with
  | [] => None
  | xml.EndElement _ :: rest =>
      match depth with
      | O => Some acc
      | S depth' => read_element depth' rest acc
      end
  | xml.StartElement _ _ :: rest => read_element (S depth) rest acc
  | xml.CharData s :: rest =>
      read_element depth rest (match depth with O => acc +:+ s | S _ => acc end)
  | _ :: rest => read_element depth rest acc
  end.

Definition DecodeElement (d : xml.Decoder) (v : Element)
    (name : xml.Name) (attr : list xml.Attr) : Element * option error :=
  match read_element 0 (xml.pending d) EmptyString with
  | Some text => ({| XMLName := name; Chardata := text |}, None)
  | None => (v, Some (xml.failure d))
  end.

(** A destination nothing was decoded into yet. *)
Definition destination : Element :=
  {| XMLName := {| xml.Space := EmptyString; xml.Local := EmptyString |};
     Chardata := EmptyString |}.

Definition xml_package : XMLPackage Element :=
  Build_XMLPackage Element NewDecoder DecodeElement.

(** *** The reader on the envelope *)














(** Whether the character occurs in the text. *)
Fixpoint occurs (c : ascii) (s : string) : bool :=
  match s with
  | EmptyString => false
  | String c' rest => Ascii.eqb c c' || occurs c rest
  end.

(** [url.Parse] on URIs of the form scheme://host/path, and on references
    that are a path: a text without colon, question mark and number
    sign. *)
Definition Parse (ref : string) : url.URL + error :=
  if String.prefix ":" ref then inr (LibError "parse: missing protocol scheme")
  else
    match split_at "://" ref with
    | Some (scheme, rest) =>
        let '(host, path) := span (fun c => negb (Ascii.eqb c "/"%char)) rest in
        inl {| url.Scheme := scheme; url.Opaque := EmptyString; url.Host := host;
               url.Path := path; url.RawQuery := EmptyString;
               url.Fragment := EmptyString |}
    | None =>
        if occurs ":"%char ref || occurs "?"%char ref || occurs "#"%char ref
        then inr (LibError "parse: not of a form this reader knows")
        else
          inl {| url.Scheme := EmptyString; url.Opaque := EmptyString;
                 url.Host := EmptyString; url.Path := ref;
                 url.RawQuery := EmptyString; url.Fragment := EmptyString |}
    end.

(** The paths at hand have no dot segments, and are their own
    resolution. *)
Definition resolvePath (path : string) : string := path.

Definition URL_String (u : url.URL) : string :=
  url.Scheme u +:+ "://" +:+ url.Host u +:+ url.Path u.

Definition url_package : URLPackage := Build_URLPackage Parse resolvePath URL_String.

Definition second : Z := 1000000000.

(** The client [http.go] builds when no environment variable is set. *)
Definition http_client : http.Client :=
  {| http.Timeout := 10 * second;
     http.Transport_ :=
       {| http.DialContext :=
            {| net.Timeout := 30 * second; net.KeepAlive := 120 * second;
               net.DualStack := true |};
          http.MaxIdleConns := 100;
          http.MaxIdleConnsPerHost := 100;
          http.IdleConnTimeout := 90 * second;
          http.TLSHandshakeTimeout := 10 * second;
          http.ExpectContinueTimeout := 1 * second |} |}.

(** Values for the variables declared outside the files at hand. *)
Definition vars : PackageVars :=
  {| DefaultURI := "http://127.0.0.1:236";
     DefaultHTTPClient := http_client;
     DefaultUnixDialer :=
       {| net.Timeout := 10 * second; net.KeepAlive := 0; net.DualStack := false |};
     DefaultUnixMaxConnections := 20 |}.

(** A system in which every dial succeeds, the k-th with connection k. *)
Definition os (dial : net.DialCall) : list (net.Conn + error) :=
  map inl (seq 1 8).

Definition socket_path : string := "/run/kopano/server.sock".

(** The pool [NewSOAPClient] makes for [socket_path], with a capacity
    of 2. *)
Definition pool : SpecPool.t :=
  {| SpecPool.capacity := 2; SpecPool.idle := []; SpecPool.acquired := [];
     SpecPool.dials := os (connect (DefaultUnixDialer vars) socket_path) |}.

(** The client [NewSOAPClient] returns for [socket_path], with that
    pool. *)
Definition socket_client : SOAPSocketClient SpecPool.t :=
  {| Dialer := DefaultUnixDialer vars; Pool := pool; Path := socket_path |}.

Definition broken_pipe : error := LibError "write: broken pipe".

(** A response with the given status and Connection header around the
    envelope of a logon response. *)
Definition response (status : Z) (connection : list string) : http.Response :=
  {| http.StatusCode := status;
     http.Header_ := [("Content-Type", ["text/xml"]); ("Connection", connection)];
     http.Body := soapEnvelope "<ns:logonResponse>42</ns:logonResponse>" |}.

End sample.

(** ** newSOAPRequest and SOAPHTTPClient.DoRequest *)

Module context.

(** A context handle.  Where the program takes a context that may be nil,
    the model takes an optional handle. *)
Definition Ctx : Type := nat.

End context.

Module request.

(** [http.Request] with the fields the program sets; [Ctx] is [None] for
    the background context a new request starts with. *)
Record Request : Type := {
  Method : string;
  URL : string;
  Header : http.Header;
  Body : string;
  Ctx : option context.Ctx
}.

(** [req.WithContext(ctx)]: the request with its context changed. *)
Definition WithContext (req : Request) (ctx : context.Ctx) : Request :=
  {| Method := Method req; URL := URL req; Header := Header req;
     Body := Body req; Ctx := Some ctx |}.

(** [h.Set(key, value)] for a key in canonical form: the values stored
    under the key are replaced by the one given. *)
Definition Header_Set (h : http.Header) (key value : string) : http.Header :=
  (key, [value]) :: List.filter (fun kv => negb (String.eqb (fst kv) key)) h.

(** [req.Header.Set(key, value)]. *)
Definition SetHeader (req : Request) (key value : string) : Request :=
  {| Method := Method req; URL := URL req;
     Header := Header_Set (Header req) key value;
     Body := Body req; Ctx := Ctx req |}.

Definition MethodPost : string := "POST".

End request.

(** What the program uses of [net/http] to send a request:
    [http.NewRequest], which rejects a method or a URL it cannot accept and
    otherwise returns a request without headers, and [Client.Do], the
    exchange with the server. *)
Class HTTPPackage : Type := {
  NewRequest_error : string -> string -> option error;
  Client_Do : http.Client -> request.Request -> http.Response + error
}.

Definition NewRequest `{HTTPPackage} (method url body : string)
    : request.Request + error :=
  match NewRequest_error method url with
  | Some err => inr err
  | None =>
      inl {| request.Method := method; request.URL := url; request.Header := [];
             request.Body := body; request.Ctx := None |}
  end.

(** [newSOAPRequest].  [Version] is a variable of the package declared
    outside the files at hand. *)
Definition newSOAPRequest `{HTTPPackage} (Version : string)
    (ctx : option context.Ctx) (url : string) (payload : string)
    : request.Request + error :=
  let body := soapEnvelope payload in
  match NewRequest request.MethodPost url body with
  | inr err => inr err
  | inl req =>
      let req :=
        match ctx with
        | Some ctx => request.WithContext req ctx
        | None => req
        end in
      let req := request.SetHeader req "Content-Type" "text/xml; charset=utf-8" in
      let req := request.SetHeader req "User-Agent" (soapUserAgent +:+ "/" +:+ Version) in
      inl req
  end.

(** A run of [SOAPHTTPClient.DoRequest]: what it returned, with the
    destination as the call left it; the requests handed to [Client.Do];
    whether the body of the response was closed. *)
Record HTTPRun (V : Type) : Type := {
  http_returned : V * option error;
  http_sent : list request.Request;
  http_body_closed : bool
}.
Arguments http_returned {V} _.
Arguments http_sent {V} _.
Arguments http_body_closed {V} _.

(** [SOAPHTTPClient.DoRequest].  The deferred [resp.Body.Close()] runs on
    both returns that follow it. *)
Definition SOAPHTTPClient_DoRequest {V : Type} `{HTTPPackage} `{XMLPackage V}
    (Version : string) (sc : SOAPHTTPClient) (ctx : option context.Ctx)
    (payload : string) (v : V) : HTTPRun V :=
  let body := soapEnvelope payload in
  match NewRequest request.MethodPost (URI sc) body with
  | inr err =>
      {| http_returned := (v, Some err); http_sent := []; http_body_closed := false |}
  | inl req =>
      let req :=
        match ctx with
        | Some ctx => request.WithContext req ctx
        | None => req
        end in
      let req := request.SetHeader req "Content-Type" "text/xml; charset=utf-8" in
      let req := request.SetHeader req "User-Agent" (soapUserAgent +:+ "/" +:+ Version) in
      match Client_Do (Client sc) req with
      | inr err =>
          {| http_returned := (v, Some err); http_sent := [req];
             http_body_closed := false |}
      | inl resp =>
          let result :=
            if negb (Z.eqb (http.StatusCode resp) http.StatusOK) then
              (v, Some (ErrStatus (http.StatusCode resp)))
            else parseSOAPResponse (http.Body resp) v in
          {| http_returned := result; http_sent := [req]; http_body_closed := true |}
      end
  end.

(** ** Observations on a run of SOAPSocketClient.DoRequest *)

Definition is_write_failure (o : NetOutcome) : bool :=
  match o with WriteFails _ => true | _ => false end.

(** The connections a request holds after the calls [evs], when it held
    [held] before: an acquisition adds the connection, a removal or a
    close of the pooled connection takes it away. *)
Fixpoint held_after (evs : list Event) (held : list net.Conn) : list net.Conn :=
  match evs with
  | [] => held
  | EvGet c :: rest => held_after rest (c :: held)
  | EvRemove c :: rest => held_after rest (SpecPool.remove_one c held)
  | EvConnClose c :: rest => held_after rest (SpecPool.remove_one c held)
  | _ :: rest => held_after rest held
  end.

(** The data of a write, for the other calls the envelope itself. *)
Definition written (payload : string) (e : Event) : string :=
  match e with
  | EvWrite _ data => data
  | _ => soapEnvelope payload
  end.

(** ** http.go: the defaults and init *)

Module time.

Definition Second : Z := 1000000000.

(** A 64 bit signed integer holds the values from -2^63 to 2^63 - 1;
    arithmetic on it wraps around. *)
Definition wrap64 (z : Z) : Z :=
  ((z + 9223372036854775808) mod 18446744073709551616 - 9223372036854775808)%Z.

(** [time.Duration(n) * time.Second] for a 64 bit [n]. *)
Definition Seconds (n : Z) : Z := wrap64 (n * Second).

End time.

(** What [http.go] uses of [strconv]: [ParseInt(s, base, bitSize)]. *)
Class StrconvPackage : Type := {
  ParseInt : string -> Z -> Z -> Z + error
}.

Module http_go.

(** The variables under the comment Default HTTP client settings. *)
Record Settings : Type := {
  DefaultHTTPTimeoutSeconds : Z;
  DefaultHTTPMaxIdleConns : Z;
  DefaultHTTPMaxIdleConnsPerHost : Z;
  DefaultHTTPIdleConnTimeoutSeconds : Z;
  DefaultHTTPDialTimeoutSeconds : Z;
  DefaultHTTPKeepAliveSeconds : Z;
  DefaultHTTPDualStack : bool
}.

(** Their values before [init] runs. *)
Definition declared : Settings :=
  {| DefaultHTTPTimeoutSeconds := 10;
     DefaultHTTPMaxIdleConns := 100;
     DefaultHTTPMaxIdleConnsPerHost := 100;
     DefaultHTTPIdleConnTimeoutSeconds := 90;
     DefaultHTTPDialTimeoutSeconds := 30;
     DefaultHTTPKeepAliveSeconds := 120;
     DefaultHTTPDualStack := true |}.

(** One of the six blocks of [init] that read a number: a variable that
    is set and parses replaces the value, anything else leaves it. *)
Definition from_env `{StrconvPackage} (getenv : string -> string)
    (name : string) (bitSize : Z) (current : Z) : Z :=
  let s := getenv name in
  if negb (String.eqb s EmptyString) then
    match ParseInt s 10 bitSize with
    | inl n => n
    | inr _ => current
    end
  else current.

(** The block of [init] that reads KCC_GO_HTTP_DUALSTACK. *)
Definition dualstack_from_env (getenv : string -> string) (current : bool) : bool :=
  let s := getenv "KCC_GO_HTTP_DUALSTACK" in
  if negb (String.eqb s EmptyString) then
    if String.eqb s "off" || String.eqb s "false" || String.eqb s "no" then false
    else if String.eqb s "on" || String.eqb s "true" || String.eqb s "yes" then true
    else current
  else current.

(** What [init] leaves behind: the flag [debug], the settings, the dialer
    and the two variables [DefaultHTTPTransport] and [DefaultHTTPClient]. *)
Record Package : Type := {
  debug : bool;
  settings : Settings;
  dialer : net.Dialer;
  DefaultHTTPTransport : http.Transport;
  DefaultHTTPClient : http.Client
}.

(** [init], in the environment [getenv].  The conversion [int(n)] of the
    two connection counts changes nothing: they were parsed at the size of
    an [int].  What [init] prints when [debug] is set is left out. *)
Definition init `{StrconvPackage} (getenv : string -> string) : Package :=
  let debug := negb (String.eqb (getenv "KCC_GO_DEBUG") EmptyString) in
  let timeout :=
    from_env getenv "KCC_GO_HTTP_TIMEOUT" 64 (DefaultHTTPTimeoutSeconds declared) in
  let maxIdleConns :=
    from_env getenv "KCC_GO_HTTP_MAX_IDLE_CONNS" 0 (DefaultHTTPMaxIdleConns declared) in
  let maxIdleConnsPerHost :=
    from_env getenv "KCC_GO_HTTP_MAX_IDLE_CONNS_PER_HOST" 0
             (DefaultHTTPMaxIdleConnsPerHost declared) in
  let idleConnTimeout :=
    from_env getenv "KCC_GO_HTTP_IDLE_CONN_TIMEOUT" 64
             (DefaultHTTPIdleConnTimeoutSeconds declared) in
  let dialTimeout :=
    from_env getenv "KCC_GO_HTTP_DIAL_TIMEOUT" 64 (DefaultHTTPDialTimeoutSeconds declared) in
  let keepAlive :=
    from_env getenv "KCC_GO_HTTP_KEEPALIVE" 64 (DefaultHTTPKeepAliveSeconds declared) in
  let dualStack := dualstack_from_env getenv (DefaultHTTPDualStack declared) in
  let dialer :=
    {| net.Timeout := time.Seconds dialTimeout;
       net.KeepAlive := time.Seconds keepAlive;
       net.DualStack := dualStack |} in
  let transport :=
    {| http.DialContext := dialer;
       http.MaxIdleConns := maxIdleConns;
       http.MaxIdleConnsPerHost := maxIdleConnsPerHost;
       http.IdleConnTimeout := time.Seconds idleConnTimeout;
       http.TLSHandshakeTimeout := 10 * time.Second;
       http.ExpectContinueTimeout := 1 * time.Second |} in
  {| debug := debug;
     settings :=
       {| DefaultHTTPTimeoutSeconds := timeout;
          DefaultHTTPMaxIdleConns := maxIdleConns;
          DefaultHTTPMaxIdleConnsPerHost := maxIdleConnsPerHost;
          DefaultHTTPIdleConnTimeoutSeconds := idleConnTimeout;
          DefaultHTTPDialTimeoutSeconds := dialTimeout;
          DefaultHTTPKeepAliveSeconds := keepAlive;
          DefaultHTTPDualStack := dualStack |};
     dialer := dialer;
     DefaultHTTPTransport := transport;
     DefaultHTTPClient :=
       {| http.Timeout := time.Seconds timeout; http.Transport_ := transport |} |}.

(** The names [init] reads. *)
Definition variables : list string :=
  ["KCC_GO_DEBUG"; "KCC_GO_HTTP_TIMEOUT"; "KCC_GO_HTTP_MAX_IDLE_CONNS";
   "KCC_GO_HTTP_MAX_IDLE_CONNS_PER_HOST"; "KCC_GO_HTTP_IDLE_CONN_TIMEOUT";
   "KCC_GO_HTTP_DIAL_TIMEOUT"; "KCC_GO_HTTP_KEEPALIVE"; "KCC_GO_HTTP_DUALSTACK"].

(** A variable [init] makes no use of: it is unset, or set to a text
    [ParseInt] rejects at the size asked for. *)
Definition unusable `{StrconvPackage} (getenv : string -> string)
    (name : string) (bitSize : Z) : Prop :=
  getenv name = EmptyString \/ exists err, ParseInt (getenv name) 10 bitSize = inr err.

End http_go.

(** ** More readers and servers to evaluate on *)

Module sample_http.

Definition is_digit (c : ascii) : bool :=
  let n := nat_of_ascii c in Nat.leb 48 n && Nat.leb n 57.

(** The value of a string of decimal digits. *)
Fixpoint digits_value (s : string) (acc : Z) : option Z :=
  match s with
  | EmptyString => Some acc
  | String c rest =>
      if is_digit c then
        digits_value rest (acc * 10 + Z.of_nat (nat_of_ascii c - 48))%Z
      else None
  end.

Definition ErrSyntax : error := LibError "strconv.ParseInt: invalid syntax".
Definition ErrRange : error := LibError "strconv.ParseInt: value out of range".

(** Decimal numbers with an optional sign, within 64 bits. *)
Definition ParseInt (s : string) (base bitSize : Z) : Z + error :=
  let '(negative, body) :=
    match s with
    | String c rest =>
        if Ascii.eqb c "-"%char then (true, rest)
        else if Ascii.eqb c "+"%char then (false, rest)
        else (false, s)
    | EmptyString => (false, s)
    end in
  match body with
  | EmptyString => inr ErrSyntax
  | String _ _ =>
      match digits_value body 0 with
      | None => inr ErrSyntax
      | Some n =>
          let z := if negative : bool then (- n)%Z else n in
          if ((-9223372036854775808 <=? z) && (z <=? 9223372036854775807))%Z
          then inl z else inr ErrRange
      end
  end.

Definition strconv_package : StrconvPackage := Build_StrconvPackage ParseInt.

(** An environment in which the listed variables are set. *)
Fixpoint getenv (env : list (string * string)) (name : string) : string :=
  match env with
  | [] => EmptyString
  | (k, value) :: rest => if String.eqb k name then value else getenv rest name
  end.

(** A server that answers the logon of the sample on /, answers other
    paths of the host kopano.local with the status 404, and cannot be
    reached on other hosts. *)
Definition Client_Do (client : http.Client) (req : request.Request)
    : http.Response + error :=
  if String.eqb (request.URL req) "http://kopano.local/" then
    inl (sample.response 200 ["keep-alive"])
  else if String.prefix "http://kopano.local/" (request.URL req) then
    inl {| http.StatusCode := 404; http.Header_ := []; http.Body := "not found" |}
  else inr (LibError "dial tcp: connection refused").

Definition NewRequest_error (method url : string) : option error :=
  if String.prefix ":" url then Some (LibError "parse: missing protocol scheme")
  else None.

Definition http_package : HTTPPackage := Build_HTTPPackage NewRequest_error Client_Do.

Definition Version : string := "0.0.0-dev".

Definition http_client (uri : string) : SOAPHTTPClient :=
  {| Client := sample.http_client; URI := uri |}.

(** A pool that cannot be made with a capacity below one, and is the pool
    of the specification otherwise. *)
Definition strict_pool (os : net.DialCall -> list (net.Conn + error))
    : ConnPool SpecPool.t :=
  {| NewPool := fun initial capacity dial =>
       if (capacity <=? 0)%Z then inr (LibError "pool: capacity below one")
       else SpecPool.new os initial capacity dial;
     GetWithTimeout := fun _ => SpecPool.acquire;
     Remove := SpecPool.remove;
     Conn_Close := SpecPool.release |}.

End sample_http.

(** * Results *)

(** ** The envelope *)

(** C2, as the source has it.  For every payload [soapEnvelope] returns the
    header constant, then the payload, then the footer
    [</SOAP-ENV:Body></SOAP-ENV:Envelope>], and nothing else; it is a
    function of the payload alone.  The header constant is the XML
    declaration, one line feed, and the opening tags of Envelope and Body;
    the header printed in the specification is the same text without the
    line feed. *)
Theorem soapEnvelope_framing (payload : string) :
  soapEnvelope payload = soapHeader +:+ payload +:+ soapFooter
  /\ soapHeader = xmlDeclaration +:+ line_feed +:+ envelopeOpen
  /\ spec_soapHeader = xmlDeclaration +:+ envelopeOpen
  /\ String.length soapHeader = S (String.length spec_soapHeader).
Proof.
  repeat split.
Qed.

(** C2, as the specification states it, fails on the empty payload: the
    envelope is not the specification's header followed by the footer,
    since the source's header has a line feed after the XML declaration. *)
Lemma soapEnvelope_not_spec_header :
  soapEnvelope EmptyString <> spec_soapHeader +:+ EmptyString +:+ soapFooter.
Proof.
  intros Heq.
  apply (f_equal String.length) in Heq.
  vm_compute in Heq. discriminate Heq.
Qed.

(** ** parseSOAPResponse *)

Section Codec.

Context {V : Type} `{XMLPackage V}.

(** One pass of the loop in terms of [Decoder.Token]: the error the call
    returns is dropped, a nil token ends the loop. *)
Lemma tokenLoop_Token (m : bool) (d : xml.Decoder) (v : V) :
  tokenLoop m (xml.pending d) (xml.failure d) v =
  match xml.Decoder_Token d with
  | (None, _, _) => (v, Some ErrUnmarshalBody)
  | (Some (xml.StartElement name attr), _, d') =>
      if m then DecodeElement d' v name attr
      else tokenLoop (String.eqb (xml.Local name) "Body")
                     (xml.pending d') (xml.failure d') v
  | (Some _, _, d') => tokenLoop m (xml.pending d') (xml.failure d') v
  end.
Proof.
  unfold xml.Decoder_Token. destruct d as [toks fin]; simpl.
  destruct toks as [|t rest]; [reflexivity|].
  destruct t; simpl; try reflexivity.
  destruct m; [reflexivity|].
  destruct (String.eqb (xml.Local name) "Body"); reflexivity.
Qed.

(** With the flag set, the loop decodes the first start element. *)
Lemma tokenLoop_matched (toks : list xml.Token) (fin : error) (v : V) :
  tokenLoop true toks fin v =
  match spec_first_start toks with
  | Some (name, attr, rest) =>
      DecodeElement {| xml.pending := rest; xml.failure := fin |} v name attr
  | None => (v, Some ErrUnmarshalBody)
  end.
Proof.
  induction toks as [|t rest IH]; simpl; [reflexivity|].
  destruct t; simpl; auto.
Qed.

(** The loop refines the specification's reading of the scan. *)
Lemma tokenLoop_body_child (toks : list xml.Token) (fin : error) (v : V) :
  tokenLoop false toks fin v =
  match spec_body_child toks with
  | Some (name, attr, rest) =>
      DecodeElement {| xml.pending := rest; xml.failure := fin |} v name attr
  | None => (v, Some ErrUnmarshalBody)
  end.
Proof.
  unfold spec_body_child.
  induction toks as [|t rest IH]; simpl; [reflexivity|].
  destruct t; simpl; auto.
  destruct (String.eqb (xml.Local name) "Body"); [|exact IH].
  apply tokenLoop_matched.
Qed.

Lemma spec_first_start_none (toks : list xml.Token) :
  existsb xml.is_start toks = false -> spec_first_start toks = None.
Proof.
  induction toks as [|t rest IH]; simpl; [reflexivity|].
  destruct t; simpl; auto; discriminate.
Qed.

Lemma spec_first_start_skip (skip rest : list xml.Token) :
  existsb xml.is_start skip = false ->
  spec_first_start (skip ++ rest) = spec_first_start rest.
Proof.
  induction skip as [|t skip IH]; simpl; [reflexivity|].
  destruct t; simpl; auto; discriminate.
Qed.

Lemma spec_after_body_none (toks : list xml.Token) :
  existsb xml.is_body_start toks = false -> spec_after_body toks = None.
Proof.
  induction toks as [|t rest IH]; simpl; [reflexivity|].
  destruct t; simpl; auto.
  destruct (String.eqb (xml.Local name) "Body"); simpl; [discriminate|auto].
Qed.

Lemma spec_after_body_skip (pre rest : list xml.Token) :
  existsb xml.is_body_start pre = false ->
  spec_after_body (pre ++ rest) = spec_after_body rest.
Proof.
  induction pre as [|t pre IH]; simpl; [reflexivity|].
  destruct t; simpl; auto.
  destruct (String.eqb (xml.Local name) "Body"); simpl; [discriminate|auto].
Qed.

Lemma spec_after_body_here (body : xml.Token) (rest : list xml.Token) :
  xml.is_body_start body = true -> spec_after_body (body :: rest) = Some rest.
Proof.
  destruct body; simpl; try discriminate.
  intros ->. reflexivity.
Qed.


(** C3.  When the tokens of the input hold no start element with the
    local name Body, or hold no start element after the first such one,
    [parseSOAPResponse] returns the error made after the loop (its text
    is: failed to unmarshal SOAP response body) and the destination is as
    it was: nothing was decoded into it. *)
Theorem parseSOAPResponse_missing_body (data : string) (v : V) :
  let toks := xml.pending (NewDecoder data) in
  existsb xml.is_body_start toks = false \/
  (exists pre body post,
      toks = pre ++ body :: post /\
      existsb xml.is_body_start pre = false /\
      xml.is_body_start body = true /\
      existsb xml.is_start post = false) ->
  parseSOAPResponse data v = (v, Some ErrUnmarshalBody)
  /\ Error ErrUnmarshalBody = "failed to unmarshal SOAP response body".
Proof.
  intros toks Hshape. split; [|reflexivity].
  unfold parseSOAPResponse. fold toks.
  rewrite tokenLoop_body_child. unfold spec_body_child.
  destruct Hshape as [Hnone | (pre & body & post & -> & Hpre & Hbody & Hpost)].
  - rewrite spec_after_body_none by exact Hnone. reflexivity.
  - rewrite spec_after_body_skip by exact Hpre.
    rewrite spec_after_body_here by exact Hbody.
    rewrite spec_first_start_none by exact Hpost. reflexivity.
Qed.

End Codec.

(** The results above on the sample reader. *)

Lemma parseSOAPResponse_missing_body_witness :
  @parseSOAPResponse _ sample.xml_package
    "<Envelope><Body>no element here</Body></Envelope>" sample.destination
  = (sample.destination, Some ErrUnmarshalBody)
  /\ @parseSOAPResponse _ sample.xml_package
       "<Envelope><Header><a>1</a></Header></Envelope>" sample.destination
     = (sample.destination, Some ErrUnmarshalBody).
Proof.
  split.
  - apply (@parseSOAPResponse_missing_body _ sample.xml_package
             "<Envelope><Body>no element here</Body></Envelope>" sample.destination).
    right.
    exists [xml.StartElement {| xml.Space := EmptyString; xml.Local := "Envelope" |} []],
           (xml.StartElement {| xml.Space := EmptyString; xml.Local := "Body" |} []),
           [xml.CharData "no element here";
            xml.EndElement {| xml.Space := EmptyString; xml.Local := "Body" |};
            xml.EndElement {| xml.Space := EmptyString; xml.Local := "Envelope" |}].
    repeat split; vm_compute; reflexivity.
  - apply (@parseSOAPResponse_missing_body _ sample.xml_package
             "<Envelope><Header><a>1</a></Header></Envelope>" sample.destination).
    left. vm_compute. reflexivity.
Defined.



(** ** The round trip through the envelope *)

(** [encoding/xml] is no part of the sources.  For the round trip the
    reader of module [sample] stands for it: the lemmas below show what
    that reader makes of a payload between [soapHeader] and [soapFooter],
    given what it makes of the payload alone. *)

(** *** A text followed by more text *)

Lemma string_length_append (a b : string) :
  String.length (a +:+ b) = String.length a + String.length b.
Proof. induction a as [|x a IH]; simpl; [reflexivity | rewrite IH; reflexivity]. Qed.





















(** *** The envelope as written *)





(** *** Tokens read where the envelope is open *)








(** *** The element decoded *)



(** *** Names in the scope of the envelope *)




(** *** The envelope read *)










(** ** NewSOAPClient *)

Section Factory.

Context {P : Type} `{URLPackage} `{ConnPool P}.
Variable vars : PackageVars.

Lemma NewSOAPClient_http (uri : url.URL) :
  url.Scheme uri = "http" \/ url.Scheme uri = "https" ->
  NewSOAPClient vars (Some uri) =
  Returned (inl (HTTPClient {| Client := DefaultHTTPClient vars; URI := URL_String uri |})).
Proof.
  intros [Hs | Hs]; unfold NewSOAPClient; rewrite Hs; reflexivity.
Qed.

Lemma NewSOAPClient_file (uri : url.URL) :
  url.Scheme uri = "file" ->
  NewSOAPClient vars (Some uri) =
  Returned
    match NewPool 0 (DefaultUnixMaxConnections vars)
                  (connect (DefaultUnixDialer vars) (url.Path uri)) with
    | inl pool =>
        inl (SocketClient {| Dialer := DefaultUnixDialer vars; Pool := pool;
                             Path := url.Path uri |})
    | inr err => inr err
    end.
Proof.
  intros Hs. unfold NewSOAPClient. rewrite Hs. simpl.
  destruct (NewPool _ _ _); reflexivity.
Qed.

Lemma NewSOAPClient_other (uri : url.URL) :
  url.Scheme uri <> "http" -> url.Scheme uri <> "https" -> url.Scheme uri <> "file" ->
  NewSOAPClient vars (Some uri) = Returned (inr (ErrInvalidScheme (url.Scheme uri))).
Proof.
  intros H1 H2 H3. unfold NewSOAPClient.
  apply String.eqb_neq in H1, H2, H3. rewrite H1, H2, H3. reflexivity.
Qed.

(** C4.  For every URI: with the scheme http or https [NewSOAPClient]
    returns a [SOAPHTTPClient] holding the default HTTP client of the
    package and the URI as a string; with the scheme file it returns a
    [SOAPSocketClient] whose path is the path of the URI and whose pool
    was made in the call, by [NewPool] with an initial size of 0; with any
    other scheme it returns an error naming the scheme, and no client.
    With the pool of the specification the pool of the new client has no
    idle and no acquired connection. *)
Theorem NewSOAPClient_scheme_dispatch (uri : url.URL) :
  (url.Scheme uri = "http" \/ url.Scheme uri = "https" ->
   NewSOAPClient vars (Some uri) =
   Returned (inl (HTTPClient {| Client := DefaultHTTPClient vars;
                                URI := URL_String uri |})))
  /\ (url.Scheme uri = "file" ->
      forall pool : P,
        NewPool 0 (DefaultUnixMaxConnections vars)
                (connect (DefaultUnixDialer vars) (url.Path uri)) = inl pool ->
        NewSOAPClient vars (Some uri) =
        Returned (inl (SocketClient {| Dialer := DefaultUnixDialer vars; Pool := pool;
                                       Path := url.Path uri |})))
  /\ (url.Scheme uri = "file" ->
      forall os, exists pool : SpecPool.t,
        @NewSOAPClient SpecPool.t _ (spec_pool os) vars (Some uri) =
        Returned (inl (SocketClient {| Dialer := DefaultUnixDialer vars; Pool := pool;
                                       Path := url.Path uri |}))
        /\ SpecPool.idle pool = [] /\ SpecPool.acquired pool = []
        /\ SpecPool.capacity pool = Z.to_nat (DefaultUnixMaxConnections vars))
  /\ (url.Scheme uri <> "http" -> url.Scheme uri <> "https" ->
      url.Scheme uri <> "file" ->
      NewSOAPClient vars (Some uri) = Returned (inr (ErrInvalidScheme (url.Scheme uri)))
      /\ Error (ErrInvalidScheme (url.Scheme uri)) =
         "invalid scheme '" +:+ url.Scheme uri +:+ "' for SOAP client").
Proof.
  split; [apply NewSOAPClient_http|].
  split; [|split].
  - intros Hs pool Hpool. rewrite NewSOAPClient_file by exact Hs.
    rewrite Hpool. reflexivity.
  - intros Hs os. eexists. split.
    + unfold NewSOAPClient. rewrite Hs. simpl. reflexivity.
    + repeat split.
  - intros H1 H2 H3. split; [|reflexivity].
    apply NewSOAPClient_other; assumption.
Qed.

(** Called with a URI, [NewSOAPClient] returns. *)
Lemma NewSOAPClient_given_uri_returns (uri : url.URL) :
  exists result, NewSOAPClient vars (Some uri) = Returned result.
Proof.
  unfold NewSOAPClient. eexists. reflexivity.
Qed.

(** C5, on the code.  Called with a nil URI, [NewSOAPClient] calls the
    method [Parse] on that nil receiver with [DefaultURI].  When
    [url.Parse] fails, the error is returned and no client.  When the
    default URI parses to a reference with a scheme, the result is what
    [NewSOAPClient] returns for that reference with its path resolved: a
    client or an error value.  When it parses to a reference without a
    scheme, [ResolveReference] reads the scheme of the nil receiver and
    the call panics, where the same reference given as the argument is
    answered with the error that names its empty scheme.  The call panics
    in that case only. *)
Theorem NewSOAPClient_nil_uri :
  (forall err, Parse (DefaultURI vars) = inr err ->
     NewSOAPClient vars None = Returned (inr err))
  /\ (forall ref, Parse (DefaultURI vars) = inl ref ->
       url.Scheme ref <> EmptyString ->
       NewSOAPClient vars None =
       NewSOAPClient vars
         (Some {| url.Scheme := url.Scheme ref; url.Opaque := url.Opaque ref;
                  url.Host := url.Host ref; url.Path := resolvePath (url.Path ref);
                  url.RawQuery := url.RawQuery ref; url.Fragment := url.Fragment ref |})
       /\ exists result : SOAPClient P + error, NewSOAPClient vars None = Returned result)
  /\ (forall ref, Parse (DefaultURI vars) = inl ref ->
       url.Scheme ref = EmptyString ->
       NewSOAPClient vars None = Panicked
       /\ NewSOAPClient vars (Some ref) = Returned (inr (ErrInvalidScheme EmptyString)))
  /\ (NewSOAPClient vars None = Panicked ->
      exists ref, Parse (DefaultURI vars) = inl ref /\ url.Scheme ref = EmptyString).
Proof.
  split; [|split; [|split]].
  - intros err Hparse. unfold NewSOAPClient, URL_Parse_nil. rewrite Hparse. reflexivity.
  - intros ref Hparse Hscheme.
    assert (Heq : NewSOAPClient vars None =
      NewSOAPClient vars
        (Some {| url.Scheme := url.Scheme ref; url.Opaque := url.Opaque ref;
                 url.Host := url.Host ref; url.Path := resolvePath (url.Path ref);
                 url.RawQuery := url.RawQuery ref; url.Fragment := url.Fragment ref |})).
    { unfold NewSOAPClient, URL_Parse_nil, URL_ResolveReference_nil.
      rewrite Hparse. apply String.eqb_neq in Hscheme. rewrite Hscheme. reflexivity. }
    split; [exact Heq|]. rewrite Heq. apply NewSOAPClient_given_uri_returns.
  - intros ref Hparse Hscheme. split.
    + unfold NewSOAPClient, URL_Parse_nil, URL_ResolveReference_nil.
      rewrite Hparse, Hscheme. reflexivity.
    + rewrite <- Hscheme. apply NewSOAPClient_other; rewrite Hscheme; discriminate.
  - unfold NewSOAPClient, URL_Parse_nil, URL_ResolveReference_nil.
    destruct (Parse (DefaultURI vars)) as [ref|err]; [|discriminate].
    destruct (String.eqb (url.Scheme ref) EmptyString) eqn:Hscheme; [|discriminate].
    intros _. exists ref. split; [reflexivity|]. apply String.eqb_eq. exact Hscheme.
Qed.

End Factory.

Lemma NewSOAPClient_scheme_dispatch_witness :
  let uri scheme host path :=
    {| url.Scheme := scheme; url.Opaque := EmptyString; url.Host := host;
       url.Path := path; url.RawQuery := EmptyString; url.Fragment := EmptyString |} in
  @NewSOAPClient SpecPool.t sample.url_package (spec_pool sample.os) sample.vars
    (Some (uri "https" "kopano.local:237" "/"))
  = Returned (inl (HTTPClient {| Client := sample.http_client;
                                 URI := "https://kopano.local:237/" |}))
  /\ @NewSOAPClient SpecPool.t sample.url_package (spec_pool sample.os) sample.vars
       (Some (uri "file" EmptyString "/run/kopano/server.sock"))
     = Returned (inl (SocketClient
              {| Dialer := DefaultUnixDialer sample.vars;
                 Pool := {| SpecPool.capacity := 20; SpecPool.idle := [];
                            SpecPool.acquired := [];
                            SpecPool.dials := sample.os (connect (DefaultUnixDialer sample.vars) "/run/kopano/server.sock") |};
                 Path := "/run/kopano/server.sock" |}))
  /\ @NewSOAPClient SpecPool.t sample.url_package (spec_pool sample.os) sample.vars
       (Some (uri "ftp" "kopano.local" "/"))
     = Returned (inr (ErrInvalidScheme "ftp")).
Proof.
  intros uri. split; [|split].
  - apply (@NewSOAPClient_scheme_dispatch SpecPool.t sample.url_package
             (spec_pool sample.os) sample.vars (uri "https" "kopano.local:237" "/")).
    right. reflexivity.
  - apply (@NewSOAPClient_scheme_dispatch SpecPool.t sample.url_package
             (spec_pool sample.os) sample.vars
             (uri "file" EmptyString "/run/kopano/server.sock")).
    + reflexivity.
    + reflexivity.
  - apply (@NewSOAPClient_scheme_dispatch SpecPool.t sample.url_package
             (spec_pool sample.os) sample.vars (uri "ftp" "kopano.local" "/"));
      discriminate.
Defined.

(** The default URI of the sample variables, one that does not parse, and
    one that is a path without a scheme. *)
Lemma NewSOAPClient_nil_uri_witness :
  let vars uri :=
    {| DefaultURI := uri; DefaultHTTPClient := sample.http_client;
       DefaultUnixDialer := DefaultUnixDialer sample.vars;
       DefaultUnixMaxConnections := 20 |} in
  @NewSOAPClient SpecPool.t sample.url_package (spec_pool sample.os)
    (vars "http://127.0.0.1:236") None
  = Returned (inl (HTTPClient {| Client := sample.http_client;
                                 URI := "http://127.0.0.1:236" |}))
  /\ @NewSOAPClient SpecPool.t sample.url_package (spec_pool sample.os)
       (vars "://") None
     = Returned (inr (LibError "parse: missing protocol scheme"))
  /\ @NewSOAPClient SpecPool.t sample.url_package (spec_pool sample.os)
       (vars "localhost") None
     = Panicked
  /\ @NewSOAPClient SpecPool.t sample.url_package (spec_pool sample.os)
       (vars "localhost")
       (Some {| url.Scheme := EmptyString; url.Opaque := EmptyString;
                url.Host := EmptyString; url.Path := "localhost";
                url.RawQuery := EmptyString; url.Fragment := EmptyString |})
     = Returned (inr (ErrInvalidScheme EmptyString)).
Proof.
  intros vars. split; [|split].
  - destruct (@NewSOAPClient_nil_uri SpecPool.t sample.url_package
                (spec_pool sample.os) (vars "http://127.0.0.1:236"))
      as (_ & Hscheme & _).
    destruct (Hscheme _ eq_refl) as [Heq _]; [discriminate|].
    rewrite Heq. reflexivity.
  - apply (@NewSOAPClient_nil_uri SpecPool.t sample.url_package
             (spec_pool sample.os) (vars "://")).
    reflexivity.
  - destruct (@NewSOAPClient_nil_uri SpecPool.t sample.url_package
                (spec_pool sample.os) (vars "localhost"))
      as (_ & _ & Hpanic & _).
    apply (Hpanic {| url.Scheme := EmptyString; url.Opaque := EmptyString;
                     url.Host := EmptyString; url.Path := "localhost";
                     url.RawQuery := EmptyString; url.Fragment := EmptyString |});
      reflexivity.
Defined.

(** ** SOAPSocketClient.DoRequest *)

Section Socket.

Context {P V : Type} `{ConnPool P} `{XMLPackage V}.

Lemma removals_app (a b : list Event) : removals (a ++ b) = removals a + removals b.
Proof. unfold removals. rewrite filter_app, length_app. reflexivity. Qed.

Lemma acquisitions_app (a b : list Event) :
acquisitions (a ++ b) = acquisitions a + acquisitions b.
Proof. unfold acquisitions. rewrite filter_app, length_app. reflexivity. Qed.

Lemma failed_passes_count (payload : string) (conns : list net.Conn) :
removals (flat_map (failed_pass payload) conns) = length conns
/\ acquisitions (flat_map (failed_pass payload) conns) = length conns.
Proof.
induction conns as [|c conns [IHr IHa]]; [split; reflexivity|].
change (flat_map (failed_pass payload) (c :: conns))
  with (failed_pass payload c ++ flat_map (failed_pass payload) conns).
rewrite removals_app, acquisitions_app, IHr, IHa.
split; reflexivity.
Qed.

Lemma with_pool_same (sc : SOAPSocketClient P) : with_pool sc (Pool sc) = sc.
Proof. destruct sc; reflexivity. Qed.

Lemma prepend_nil (r : Run P V) : prepend [] r = r.
Proof. destruct r; reflexivity. Qed.

Lemma prepend_app (a b : list Event) (r : Run P V) :
prepend a (prepend b r) = prepend (a ++ b) r.
Proof. unfold prepend; simpl. rewrite app_assoc. reflexivity. Qed.

(** A failed acquisition ends the request with the error of the pool. *)
Lemma DoRequest_acquire_fails (sc : SOAPSocketClient P) (payload : string)
  (peer : list NetOutcome) (v : V) (pool1 : P) (err : error) :
GetWithTimeout (net.Timeout (Dialer sc)) (Pool sc) = (inr err, pool1) ->
SOAPSocketClient_DoRequest sc payload peer v =
{| returned := Some (v, Some (ErrOpenSocket err));
   pool_after := pool1;
   events := [EvGetFailed] |}.
Proof.
intros Hget. destruct peer; simpl; rewrite Hget; reflexivity.
Qed.

(** One failed write: the connection is removed and the request goes on
  as a request that starts on the pool without it. *)
Lemma DoRequest_write_fails (sc : SOAPSocketClient P) (payload : string)
  (peer : list NetOutcome) (v : V) (pool1 : P) (c : net.Conn) (err : error) :
GetWithTimeout (net.Timeout (Dialer sc)) (Pool sc) = (inl c, pool1) ->
SOAPSocketClient_DoRequest sc payload (WriteFails err :: peer) v =
prepend (failed_pass payload c)
        (SOAPSocketClient_DoRequest (with_pool sc (Remove c pool1)) payload peer v).
Proof.
intros Hget. simpl. rewrite Hget. reflexivity.
Qed.

(** C6.  Let the writes of the first passes fail, as many as [errs] is
  long, each on a connection the pool handed out.  Then every one of
  these passes acquired a connection, wrote to it and removed it from the
  pool, and the request goes on from the acquisition step as a fresh
  request does on the pool so reached: it returns what that one returns.
  This holds for every number of failures: no count ends the retries,
  and nothing happens between a removal and the next acquisition.  What
  ends them is the pool: when the next acquisition fails the request
  returns the error for it; when it succeeds and nothing more is known of
  the peer the request has not returned. *)
Theorem DoRequest_retries_after_write_failure
  (sc : SOAPSocketClient P) (payload : string)
  (errs : list error) (peer : list NetOutcome) (v : V) (pool' : P) :
after_write_failures (net.Timeout (Dialer sc)) (length errs) (Pool sc) = Some pool' ->
let run := SOAPSocketClient_DoRequest sc payload (map WriteFails errs ++ peer) v in
let rest := SOAPSocketClient_DoRequest (with_pool sc pool') payload peer v in
(exists conns,
    length conns = length errs /\
    run = prepend (flat_map (failed_pass payload) conns) rest /\
    removals (events run) = length errs + removals (events rest))
/\ (forall err pool1,
      GetWithTimeout (net.Timeout (Dialer sc)) pool' = (inr err, pool1) ->
      returned run = Some (v, Some (ErrOpenSocket err)))
/\ (forall c pool1,
      GetWithTimeout (net.Timeout (Dialer sc)) pool' = (inl c, pool1) ->
      peer = [] -> returned run = None).
Proof.
intros Hafter run rest.
assert (Hrun : exists conns,
           length conns = length errs /\
           run = prepend (flat_map (failed_pass payload) conns) rest).
{ subst run rest. revert sc Hafter.
  induction errs as [|e errs IH]; intros sc Hafter.
  - simpl in Hafter. injection Hafter as <-.
    exists []. split; [reflexivity|].
    simpl. rewrite with_pool_same, prepend_nil. reflexivity.
  - simpl in Hafter.
    destruct (GetWithTimeout (net.Timeout (Dialer sc)) (Pool sc))
      as [[c | err] pool1] eqn:Hget; [|discriminate].
    destruct (IH (with_pool sc (Remove c pool1)) Hafter) as (conns & Hlen & Heq).
    exists (c :: conns). split; [simpl; rewrite Hlen; reflexivity|].
    change (map WriteFails (e :: errs) ++ peer)
      with (WriteFails e :: (map WriteFails errs ++ peer)).
    rewrite (DoRequest_write_fails _ _ _ _ _ _ _ Hget), Heq.
    rewrite prepend_app. reflexivity. }
destruct Hrun as (conns & Hlen & Hrun).
split.
- exists conns. split; [exact Hlen|]. split; [exact Hrun|].
  rewrite Hrun. unfold prepend; simpl.
  rewrite removals_app, (proj1 (failed_passes_count payload conns)), Hlen.
  reflexivity.
- rewrite Hrun. subst rest. split.
  + intros err pool1 Hget.
    rewrite (DoRequest_acquire_fails (with_pool sc pool') _ _ _ _ _ Hget). reflexivity.
  + intros c pool1 Hget ->. simpl. rewrite Hget. reflexivity.
Qed.

(** C7.  When a connection was obtained, the write on it succeeded and
  reading the response fails, the request removes that connection and
  returns the error for the failed read at once, with the destination
  as it was.  It makes no second acquisition and no second write,
  whatever the peer would have done next. *)
Theorem DoRequest_read_failure_is_final
  (sc : SOAPSocketClient P) (payload : string)
  (peer : list NetOutcome) (v : V) (pool1 : P) (c : net.Conn) (err : error) :
GetWithTimeout (net.Timeout (Dialer sc)) (Pool sc) = (inl c, pool1) ->
SOAPSocketClient_DoRequest sc payload (ReadFails err :: peer) v =
{| returned := Some (v, Some (ErrReadSocket err));
   pool_after := Remove c pool1;
   events := [EvGet c; EvWrite c (soapEnvelope payload); EvReadResponse c;
              EvRemove c] |}
/\ acquisitions
     (events (SOAPSocketClient_DoRequest sc payload (ReadFails err :: peer) v)) = 1.
Proof.
intros Hget. simpl. rewrite Hget. split; reflexivity.
Qed.

(** C8.  When a response was read, the request ends with the deferred
  function: it closes the body and then, when the Connection header of
  the response is keep-alive, closes the pooled connection, which gives
  it back to the pool; for every other value of the header, and when the
  header is absent, it removes the connection from the pool.  This is
  so when the status is not 200, where nothing is parsed and the status
  error is returned, and when the status is 200, where the body is
  parsed first and the result of parsing is returned. *)
Theorem DoRequest_deferred_cleanup
  (sc : SOAPSocketClient P) (payload : string)
  (resp : http.Response) (peer : list NetOutcome) (v : V)
  (pool1 : P) (c : net.Conn) :
GetWithTimeout (net.Timeout (Dialer sc)) (Pool sc) = (inl c, pool1) ->
let run := SOAPSocketClient_DoRequest sc payload (Responds resp :: peer) v in
let connection := http.Header_Get (http.Header_ resp) "Connection" in
let sent := [EvGet c; EvWrite c (soapEnvelope payload); EvReadResponse c] in
(connection = "keep-alive" ->
   pool_after run = Conn_Close c pool1 /\
   exists work, events run = sent ++ work ++ [EvBodyClose; EvConnClose c])
/\ (connection <> "keep-alive" ->
   pool_after run = Remove c pool1 /\
   exists work, events run = sent ++ work ++ [EvBodyClose; EvRemove c])
/\ (http.StatusCode resp <> http.StatusOK ->
   returned run = Some (v, Some (ErrStatus (http.StatusCode resp))) /\
   exists cleanup, events run = sent ++ cleanup /\ In EvBodyClose cleanup)
/\ (http.StatusCode resp = http.StatusOK ->
   returned run = Some (parseSOAPResponse (http.Body resp) v) /\
   exists cleanup, events run = sent ++ EvParse :: cleanup /\ In EvBodyClose cleanup).
Proof.
intros Hget run connection sent.
assert (Hrun : run =
  let canReuseConnection := String.eqb connection "keep-alive" in
  let '(result, work) :=
    if negb (Z.eqb (http.StatusCode resp) http.StatusOK) then
      ((v, Some (ErrStatus (http.StatusCode resp))), [])
    else (parseSOAPResponse (http.Body resp) v, [EvParse]) in
  let '(pool2, cleanup) := deferred_cleanup canReuseConnection c pool1 in
  {| returned := Some result; pool_after := pool2;
     events := sent ++ work ++ cleanup |}).
{ subst run. simpl. rewrite Hget. reflexivity. }
rewrite Hrun. clear Hrun. unfold deferred_cleanup.
split; [|split; [|split]].
- intros Hc. apply String.eqb_eq in Hc. rewrite Hc.
  destruct (negb _); (split; [reflexivity | eexists; reflexivity]).
- intros Hc. apply String.eqb_neq in Hc. rewrite Hc.
  destruct (negb _); (split; [reflexivity | eexists; reflexivity]).
- intros Hs. apply Z.eqb_neq in Hs. rewrite Hs. simpl.
  destruct (String.eqb _ _);
    (split; [reflexivity | eexists; split; [reflexivity | simpl; auto]]).
- intros Hs. apply Z.eqb_eq in Hs. rewrite Hs. simpl.
  destruct (String.eqb _ _);
    (split; [reflexivity | eexists; split; [reflexivity | simpl; auto]]).
Qed.

End Socket.

(** The results above on the pool of the specification and the sample
    reader. *)

Lemma DoRequest_retries_after_write_failure_witness :
  let errs := [sample.broken_pipe; sample.broken_pipe; sample.broken_pipe] in
  let run :=
    @SOAPSocketClient_DoRequest _ _ (spec_pool sample.os) sample.xml_package
      sample.socket_client "<ns:logon/>"
      (map WriteFails errs ++ []) sample.destination in
  @after_write_failures _ (spec_pool sample.os)
    (net.Timeout (Dialer sample.socket_client)) 3 sample.pool
  = Some {| SpecPool.capacity := 2; SpecPool.idle := []; SpecPool.acquired := [];
            SpecPool.dials := map inl (seq 4 5) |}
  /\ returned run = None
  /\ removals (events run) = 3.
Proof.
  intros errs run.
  assert (Hafter :
    @after_write_failures _ (spec_pool sample.os)
      (net.Timeout (Dialer sample.socket_client)) (length errs)
      (Pool sample.socket_client)
    = Some {| SpecPool.capacity := 2; SpecPool.idle := []; SpecPool.acquired := [];
              SpecPool.dials := map inl (seq 4 5) |}) by reflexivity.
  split; [exact Hafter|].
  destruct (@DoRequest_retries_after_write_failure _ _ (spec_pool sample.os)
              sample.xml_package sample.socket_client "<ns:logon/>"
              errs [] sample.destination _ Hafter)
    as ((conns & Hlen & Hrun & Hrem) & _ & Hgoes_on).
  split.
  - eapply Hgoes_on; reflexivity.
  - reflexivity.
Defined.

Lemma DoRequest_read_failure_is_final_witness :
  @SOAPSocketClient_DoRequest _ _ (spec_pool sample.os) sample.xml_package
    sample.socket_client "<ns:logon/>"
    [ReadFails (LibError "unexpected EOF"); Responds (sample.response 200 ["keep-alive"])]
    sample.destination
  = {| returned :=
         Some (sample.destination, Some (ErrReadSocket (LibError "unexpected EOF")));
       pool_after :=
         {| SpecPool.capacity := 2; SpecPool.idle := []; SpecPool.acquired := [];
            SpecPool.dials := map inl (seq 2 7) |};
       events := [EvGet 1; EvWrite 1 (soapEnvelope "<ns:logon/>"); EvReadResponse 1;
                  EvRemove 1] |}.
Proof.
  apply (@DoRequest_read_failure_is_final _ _ (spec_pool sample.os) sample.xml_package
           sample.socket_client "<ns:logon/>"
           [Responds (sample.response 200 ["keep-alive"])] sample.destination
           {| SpecPool.capacity := 2; SpecPool.idle := []; SpecPool.acquired := [1];
              SpecPool.dials := map inl (seq 2 7) |}
           1 (LibError "unexpected EOF")).
  reflexivity.
Defined.

Lemma DoRequest_deferred_cleanup_witness :
  let request resp :=
    @SOAPSocketClient_DoRequest _ _ (spec_pool sample.os) sample.xml_package
      sample.socket_client "<ns:logon/>" [Responds resp] sample.destination in
  (SpecPool.idle (pool_after (request (sample.response 200 ["keep-alive"]))) = [1]
   /\ SpecPool.acquired (pool_after (request (sample.response 200 ["keep-alive"]))) = [])
  /\ (SpecPool.idle (pool_after (request (sample.response 200 ["close"]))) = []
      /\ SpecPool.acquired (pool_after (request (sample.response 200 ["close"]))) = [])
  /\ returned (request (sample.response 503 []))
     = Some (sample.destination, Some (ErrStatus 503))
  /\ returned (request (sample.response 200 ["keep-alive"]))
     = Some ({| sample.XMLName := {| xml.Space := "urn:zarafa"; xml.Local := "logonResponse" |};
                sample.Chardata := "42" |}, None).
Proof.
  intros request.
  pose (acquired1 := {| SpecPool.capacity := 2; SpecPool.idle := [];
                        SpecPool.acquired := [1];
                        SpecPool.dials := map inl (seq 2 7) |}).
  pose (cleanup resp :=
    @DoRequest_deferred_cleanup _ _ (spec_pool sample.os) sample.xml_package
      sample.socket_client "<ns:logon/>" resp [] sample.destination
      acquired1 1 eq_refl).
  split; [|split; [|split]].
  - destruct (cleanup (sample.response 200 ["keep-alive"])) as (Hkeep & _).
    destruct (Hkeep eq_refl) as [Hpool _].
    unfold request. rewrite Hpool. split; reflexivity.
  - destruct (cleanup (sample.response 200 ["close"])) as (_ & Hdrop & _).
    assert (Hne : http.Header_Get (http.Header_ (sample.response 200 ["close"]))
                    "Connection" <> "keep-alive") by discriminate.
    destruct (Hdrop Hne) as [Hpool _].
    unfold request. rewrite Hpool. split; reflexivity.
  - destruct (cleanup (sample.response 503 [])) as (_ & _ & Hstatus & _).
    assert (Hne : http.StatusCode (sample.response 503 []) <> http.StatusOK)
      by discriminate.
    destruct (Hstatus Hne) as [Hret _]. exact Hret.
  - destruct (cleanup (sample.response 200 ["keep-alive"])) as (_ & _ & _ & Hok).
    destruct (Hok eq_refl) as [Hret _].
    unfold request. rewrite Hret. vm_compute. reflexivity.
Defined.

(** ** The pool of the specification *)

Section Pool.

Import SpecPool.

Lemma remove_one_length (c : net.Conn) (l : list net.Conn) :
holds c l = true -> S (length (remove_one c l)) = length l.
Proof.
unfold holds. induction l as [|x l IH]; simpl; [discriminate|].
rewrite (Nat.eqb_sym c x).
destruct (Nat.eqb x c); simpl; [reflexivity|].
intros Hin. rewrite (IH Hin). reflexivity.
Qed.

Lemma acquire_capacity (p : t) : capacity (snd (acquire p)) = capacity p.
Proof.
unfold acquire. destruct (idle p); [|reflexivity].
destruct (Nat.ltb _ _); [|reflexivity].
destruct (dials p) as [|[c | err] later]; reflexivity.
Qed.

Lemma acquire_tracked (p : t) :
tracked p <= capacity p -> tracked (snd (acquire p)) <= capacity p.
Proof.
destruct p as [cap idl acq ds]. unfold tracked, acquire. simpl. intros Hinv.
destruct idl as [|c rest]; simpl in *.
- destruct (Nat.ltb (length acq) cap) eqn:Hlt.
  + apply Nat.ltb_lt in Hlt.
    destruct ds as [|[c | err] later]; simpl; lia.
  + simpl. lia.
- lia.
Qed.

Lemma release_tracked (c : net.Conn) (p : t) : tracked (release c p) = tracked p.
Proof.
unfold tracked, release. destruct (holds c (acquired p)) eqn:Hin; [|reflexivity].
simpl. rewrite length_app. simpl.
pose proof (remove_one_length _ _ Hin). lia.
Qed.

Lemma remove_tracked (c : net.Conn) (p : t) : tracked (remove c p) <= tracked p.
Proof.
unfold tracked, remove. destruct (holds c (acquired p)) eqn:Hin; [|reflexivity].
simpl. pose proof (remove_one_length _ _ Hin). lia.
Qed.

Lemma call_capacity (p : t) (k : Call) : capacity (call p k) = capacity p.
Proof.
destruct k; simpl.
- apply acquire_capacity.
- unfold release. destruct (holds _ _); reflexivity.
- unfold remove. destruct (holds _ _); reflexivity.
Qed.

Lemma call_tracked (p : t) (k : Call) :
tracked p <= capacity p -> tracked (call p k) <= capacity p.
Proof.
intros Hinv. destruct k; simpl.
- apply acquire_tracked, Hinv.
- rewrite release_tracked. exact Hinv.
- pose proof (remove_tracked c p). lia.
Qed.

Lemma interleaving_bound (calls : list Call) (p : t) :
tracked p <= capacity p ->
tracked (interleaving calls p) <= capacity p
/\ capacity (interleaving calls p) = capacity p.
Proof.
unfold interleaving. revert p.
induction calls as [|k calls IH]; intros p Hinv; simpl; [split; [exact Hinv | reflexivity]|].
destruct (IH (call p k)) as [Hb Hc].
- rewrite call_capacity. apply call_tracked, Hinv.
- rewrite call_capacity in Hb, Hc. split; assumption.
Qed.

Lemma fill_length (n : nat) (answers later : list (net.Conn + error))
  (conns conns' : list net.Conn) :
fill n answers conns = inl (conns', later) -> length conns' = length conns + n.
Proof.
revert answers conns.
induction n as [|n IH]; intros answers conns; simpl.
- intros Heq. injection Heq as <- _. lia.
- destruct answers as [|[c | err] more]; try discriminate.
  intros Heq. apply IH in Heq. rewrite length_app in Heq. simpl in Heq. lia.
Qed.

(** A pool whose connections are all acquired answers an acquisition with
  the timeout error and stays as it is. *)
Lemma acquire_full (p : t) :
tracked p <= capacity p -> length (acquired p) = capacity p ->
acquire p = (inr errTimeout, p).
Proof.
unfold tracked, acquire. intros Hinv Hfull.
destruct (idle p) as [|c rest]; simpl in Hinv; [|lia].
rewrite Hfull, Nat.ltb_irrefl. reflexivity.
Qed.

(** C9.  Take a pool of capacity [N] made with an initial size of at most
  [N], and let concurrent requests call acquire, release and remove on it
  in any order, each call taking effect at once.  After every such
  sequence of calls the acquired connections and the idle ones are
  together at most [N].  When [N] connections are acquired, one more
  acquisition ends in the timeout error and changes nothing in the pool:
  the capacity is not exceeded. *)
Theorem pool_never_exceeds_capacity
  (os : net.DialCall -> list (net.Conn + error)) (initial N : Z)
  (dial : net.DialCall) (p : t) (calls : list Call) :
(0 <= initial <= N)%Z ->
@NewPool t (spec_pool os) initial N dial = inl p ->
let p' := interleaving calls p in
length (acquired p') + length (idle p') <= Z.to_nat N
/\ (length (acquired p') = Z.to_nat N ->
    forall timeout,
      @GetWithTimeout t (spec_pool os) timeout p' = (inr errTimeout, p')
      /\ interleaving (calls ++ [CallAcquire]) p = p').
Proof.
intros Hrange Hnew p'. simpl in Hnew. unfold new in Hnew.
destruct (fill (Z.to_nat initial) (os dial) []) as [[conns later] | err] eqn:Hfill;
  [|discriminate].
injection Hnew as <-.
apply fill_length in Hfill. simpl in Hfill.
set (p0 := {| capacity := Z.to_nat N; idle := conns; acquired := [];
              dials := later |}) in *.
assert (Hinv : tracked p0 <= capacity p0).
{ unfold tracked, p0. simpl. lia. }
destruct (interleaving_bound calls p0 Hinv) as [Hb Hc].
fold p' in Hb, Hc. change (capacity p0) with (Z.to_nat N) in Hb, Hc.
split; [exact Hb|].
intros Hfull timeout.
assert (Hacq : acquire p' = (inr errTimeout, p')).
{ apply acquire_full; rewrite Hc; assumption. }
split; [exact Hacq|].
unfold interleaving. rewrite fold_left_app. simpl.
fold (interleaving calls p0). fold p'. rewrite Hacq. reflexivity.
Qed.

End Pool.

(** The calls one request makes on the pool of its client are such a
    sequence: an acquisition per pass, each followed by a removal or a
    release of the connection obtained. *)
Lemma DoRequest_pool_calls {V : Type} `{XMLPackage V}
    (os : net.DialCall -> list (net.Conn + error))
    (sc : SOAPSocketClient SpecPool.t) (payload : string)
    (peer : list NetOutcome) (v : V) :
  exists calls,
    pool_after (@SOAPSocketClient_DoRequest _ _ (spec_pool os) _ sc payload peer v)
    = SpecPool.interleaving calls (Pool sc).
Proof.
  revert sc. induction peer as [|o peer IH]; intros sc.
  - exists [SpecPool.CallAcquire]. simpl.
    destruct (SpecPool.acquire (Pool sc)) as [[c | err] pool1]; reflexivity.
  - simpl. destruct (SpecPool.acquire (Pool sc)) as [[c | err] pool1] eqn:Hacq.
    + assert (Hpool1 : pool1 = SpecPool.call (Pool sc) SpecPool.CallAcquire).
      { simpl. rewrite Hacq. reflexivity. }
      destruct o as [e | e | resp].
      * destruct (IH (with_pool sc (SpecPool.remove c pool1))) as [calls Hcalls].
        exists (SpecPool.CallAcquire :: SpecPool.CallRemove c :: calls).
        simpl in *. rewrite Hcalls, Hacq. reflexivity.
      * exists [SpecPool.CallAcquire; SpecPool.CallRemove c].
        simpl. rewrite Hacq. reflexivity.
      * destruct (String.eqb (http.Header_Get (http.Header_ resp) "Connection")
                             "keep-alive");
          [exists [SpecPool.CallAcquire; SpecPool.CallRelease c]
          |exists [SpecPool.CallAcquire; SpecPool.CallRemove c]];
          destruct (negb (Z.eqb (http.StatusCode resp) http.StatusOK));
          simpl; rewrite Hacq; reflexivity.
    + exists [SpecPool.CallAcquire]. simpl. rewrite Hacq. reflexivity.
Qed.

(** A request leaves the pool of its client within its capacity. *)
Lemma DoRequest_keeps_capacity {V : Type} `{XMLPackage V}
    (os : net.DialCall -> list (net.Conn + error))
    (sc : SOAPSocketClient SpecPool.t) (payload : string)
    (peer : list NetOutcome) (v : V) :
  SpecPool.tracked (Pool sc) <= SpecPool.capacity (Pool sc) ->
  SpecPool.tracked
    (pool_after (@SOAPSocketClient_DoRequest _ _ (spec_pool os) _ sc payload peer v))
  <= SpecPool.capacity (Pool sc).
Proof.
  intros Hinv. destruct (DoRequest_pool_calls os sc payload peer v) as [calls ->].
  apply interleaving_bound, Hinv.
Qed.

Lemma pool_never_exceeds_capacity_witness :
  let dial := connect (DefaultUnixDialer sample.vars) sample.socket_path in
  let calls :=
    [SpecPool.CallAcquire; SpecPool.CallAcquire; SpecPool.CallRelease 1;
     SpecPool.CallAcquire; SpecPool.CallAcquire; SpecPool.CallRemove 2;
     SpecPool.CallAcquire] in
  let p' := SpecPool.interleaving calls sample.pool in
  SpecPool.acquired p' = [3; 1]
  /\ length (SpecPool.acquired p') + length (SpecPool.idle p') <= 2
  /\ SpecPool.acquire p' = (inr SpecPool.errTimeout, p').
Proof.
  intros dial calls p'.
  destruct (pool_never_exceeds_capacity sample.os 0 2 dial sample.pool calls)
    as [Hbound Hfull].
  - lia.
  - reflexivity.
  - split; [reflexivity|]. split; [exact Hbound|].
    apply (Hfull eq_refl 0%Z).
Defined.

(** ** Evaluations *)

Example Error_status_text :
  Error (ErrStatus 503) = "unexpected http response status: 503".
Proof. reflexivity. Qed.

Example Error_open_socket_text :
  Error (ErrOpenSocket SpecPool.errTimeout) = "failed to open unix socket: timeout".
Proof. reflexivity. Qed.

Example soapEnvelope_length :
  String.length (soapEnvelope "<ns:logon/>") = 479 + 11 + 36.
Proof. reflexivity. Qed.

Example Header_Get_absent :
  http.Header_Get [("Content-Type", ["text/xml"])] "Connection" = EmptyString.
Proof. reflexivity. Qed.

(** A default URI with a scheme that is none of the three is rejected by
    the dispatch. *)
Example NewSOAPClient_default_uri_other_scheme :
  @NewSOAPClient SpecPool.t sample.url_package (spec_pool sample.os)
    {| DefaultURI := "ftp://kopano.local/"; DefaultHTTPClient := sample.http_client;
       DefaultUnixDialer := DefaultUnixDialer sample.vars;
       DefaultUnixMaxConnections := 20 |} None
  = Returned (inr (ErrInvalidScheme "ftp")).
Proof. reflexivity. Qed.

(** A default URI that is an absolute path makes the call on the nil
    receiver panic. *)
Example NewSOAPClient_default_uri_path :
  @NewSOAPClient SpecPool.t sample.url_package (spec_pool sample.os)
    {| DefaultURI := "/run/kopano/server.sock"; DefaultHTTPClient := sample.http_client;
       DefaultUnixDialer := DefaultUnixDialer sample.vars;
       DefaultUnixMaxConnections := 20 |} None
  = Panicked.
Proof. reflexivity. Qed.

(** A payload element named Body is decoded like any other. *)
Example parseSOAPResponse_payload_named_Body :
  @parseSOAPResponse _ sample.xml_package
    (soapEnvelope "<Body><x>1</x>text</Body>") sample.destination
  = ({| sample.XMLName := {| xml.Space := EmptyString; xml.Local := "Body" |};
        sample.Chardata := "text" |}, None).
Proof. vm_compute. reflexivity. Qed.

(** The local name is compared with its case: body is not Body. *)
Example parseSOAPResponse_lower_case_body :
  @parseSOAPResponse _ sample.xml_package
    "<envelope><body><x>1</x></body></envelope>" sample.destination
  = (sample.destination, Some ErrUnmarshalBody).
Proof. vm_compute. reflexivity. Qed.

(** One failed write, then a response on a fresh connection: the request
    succeeds and the pool holds the second connection as idle. *)
Example DoRequest_retry_then_success :
  let run :=
    @SOAPSocketClient_DoRequest _ _ (spec_pool sample.os) sample.xml_package
      sample.socket_client "<ns:logon/>"
      [WriteFails sample.broken_pipe; Responds (sample.response 200 ["keep-alive"])]
      sample.destination in
  returned run
  = Some ({| sample.XMLName := {| xml.Space := "urn:zarafa"; xml.Local := "logonResponse" |};
             sample.Chardata := "42" |}, None)
  /\ SpecPool.idle (pool_after run) = [2]
  /\ SpecPool.acquired (pool_after run) = []
  /\ removals (events run) = 1.
Proof. vm_compute. repeat split. Qed.

(** With every connection of the pool acquired by others, the request
    returns the error for the failed acquisition. *)
Example DoRequest_pool_exhausted :
  let busy :=
    {| SpecPool.capacity := 2; SpecPool.idle := []; SpecPool.acquired := [2; 1];
       SpecPool.dials := map inl (seq 3 6) |} in
  returned
    (@SOAPSocketClient_DoRequest _ _ (spec_pool sample.os) sample.xml_package
       (with_pool sample.socket_client busy) "<ns:logon/>"
       [Responds (sample.response 200 ["keep-alive"])] sample.destination)
  = Some (sample.destination, Some (ErrOpenSocket SpecPool.errTimeout)).
Proof. reflexivity. Qed.

(** * Further results *)

(** ** The envelope *)

Lemma string_append_cancel_l (a b c : string) : a +:+ b = a +:+ c -> b = c.
Proof.
  induction a as [|x a IH]; simpl; intros Heq; [exact Heq|].
  injection Heq as Heq. auto.
Qed.

Lemma string_append_cancel_r (a b c : string) : a +:+ c = b +:+ c -> a = b.
Proof.
  assert (Hlen : forall (y : ascii) (s : string),
             String.length (String y (s +:+ c)) <> String.length c).
  { intros y s. change (S (String.length (s +:+ c)) <> String.length c).
    rewrite string_length_append. lia. }
  revert b. induction a as [|x a IH]; intros [|y b] Heq.
  - reflexivity.
  - exfalso. apply (Hlen y b). change (EmptyString +:+ c) with c in Heq.
    rewrite Heq at 2. reflexivity.
  - exfalso. apply (Hlen x a). change (EmptyString +:+ c) with c in Heq.
    rewrite <- Heq at 2. reflexivity.
  - change (String x (a +:+ c) = String y (b +:+ c)) in Heq.
    injection Heq as -> Heq. rewrite (IH _ Heq). reflexivity.
Qed.

Lemma append_empty_l_eq (s : string) : EmptyString +:+ s = s.
Proof. reflexivity. Qed.

(** X1.  The envelope is 515 bytes longer than its payload, and two
    payloads with the same envelope are the same payload: wrapping loses
    nothing of the payload and adds nothing that depends on it. *)
Theorem soapEnvelope_injective (p q : string) :
  String.length (soapEnvelope p) = 515 + String.length p
  /\ (soapEnvelope p = soapEnvelope q -> p = q).
Proof.
  split.
  - unfold soapEnvelope. rewrite !append_empty_l_eq.
    rewrite !string_length_append.
    replace (String.length soapHeader) with 479 by reflexivity.
    replace (String.length soapFooter) with 36 by reflexivity. lia.
  - unfold soapEnvelope. rewrite !append_empty_l_eq.
    intros Heq. apply string_append_cancel_r in Heq.
    apply string_append_cancel_l in Heq. exact Heq.
Qed.

Lemma soapEnvelope_injective_witness :
  String.length (soapEnvelope "<ns:logon/>") = 526
  /\ "<ns:logon/>" = "<ns:logon/>".
Proof.
  destruct (soapEnvelope_injective "<ns:logon/>" "<ns:logon/>") as [Hlen Hinj].
  split; [exact Hlen | exact (Hinj eq_refl)].
Defined.

(** ** parseSOAPResponse *)

Lemma spec_after_body_inv (toks rest : list xml.Token) :
  spec_after_body toks = Some rest ->
  exists pre body,
    toks = pre ++ body :: rest /\
    existsb xml.is_body_start pre = false /\
    xml.is_body_start body = true.
Proof.
  induction toks as [|t toks IH]; simpl; [discriminate|].
  assert (Hstep : spec_after_body toks = Some rest ->
                  xml.is_body_start t = false ->
                  exists pre body,
                    t :: toks = pre ++ body :: rest /\
                    existsb xml.is_body_start pre = false /\
                    xml.is_body_start body = true).
  { intros Hs Ht. destruct (IH Hs) as (pre & body & -> & Hpre & Hbody).
    exists (t :: pre), body. simpl. rewrite Ht, Hpre. auto. }
  destruct t; auto.
  destruct (String.eqb (xml.Local name) "Body") eqn:Hname.
  - intros Heq. injection Heq as ->.
    exists [], (xml.StartElement name attr). simpl. auto.
  - intros Hs. apply Hstep; [exact Hs | exact Hname].
Qed.

Lemma spec_after_body_none_inv (toks : list xml.Token) :
  spec_after_body toks = None -> existsb xml.is_body_start toks = false.
Proof.
  induction toks as [|t toks IH]; simpl; [reflexivity|].
  destruct t; simpl; auto.
  destruct (String.eqb (xml.Local name) "Body"); [discriminate | auto].
Qed.

Lemma spec_first_start_inv (toks rest : list xml.Token)
    (name : xml.Name) (attr : list xml.Attr) :
  spec_first_start toks = Some (name, attr, rest) ->
  exists skip,
    toks = skip ++ xml.StartElement name attr :: rest /\
    existsb xml.is_start skip = false.
Proof.
  induction toks as [|t toks IH]; simpl; [discriminate|].
  assert (Hstep : spec_first_start toks = Some (name, attr, rest) ->
                  xml.is_start t = false ->
                  exists skip,
                    t :: toks = skip ++ xml.StartElement name attr :: rest /\
                    existsb xml.is_start skip = false).
  { intros Hs Ht. destruct (IH Hs) as (skip & -> & Hskip).
    exists (t :: skip). simpl. rewrite Ht, Hskip. auto. }
  destruct t; auto.
  intros Heq. injection Heq as -> -> ->. exists []. auto.
Qed.

Lemma spec_first_start_none_inv (toks : list xml.Token) :
  spec_first_start toks = None -> existsb xml.is_start toks = false.
Proof.
  induction toks as [|t toks IH]; simpl; [reflexivity|].
  destruct t; simpl; auto. discriminate.
Qed.

(** X2.  Every input falls under one of the two cases of the token loop.
    Either its tokens are: tokens without a Body start element, a Body
    start element, tokens that are no start elements, a start element,
    and the rest; then the result is what [DecodeElement] returns for that
    start element on the rest.  Or the tokens hold no Body start element,
    or none after the first one; then the result is the error made after
    the loop.  No Envelope element is asked for, the Body element may be in
    any name space and at any depth, and end elements are passed over. *)
Theorem parseSOAPResponse_cases {V : Type} `{XMLPackage V} (data : string) (v : V) :
  let d := NewDecoder data in
  (exists pre body skip name attr rest,
      xml.pending d = pre ++ body :: skip ++ xml.StartElement name attr :: rest /\
      existsb xml.is_body_start pre = false /\
      xml.is_body_start body = true /\
      existsb xml.is_start skip = false /\
      parseSOAPResponse data v =
      DecodeElement {| xml.pending := rest; xml.failure := xml.failure d |} v name attr)
  \/ ((existsb xml.is_body_start (xml.pending d) = false \/
       exists pre body post,
         xml.pending d = pre ++ body :: post /\
         existsb xml.is_body_start pre = false /\
         xml.is_body_start body = true /\
         existsb xml.is_start post = false)
      /\ parseSOAPResponse data v = (v, Some ErrUnmarshalBody)).
Proof.
  intros d. unfold parseSOAPResponse. fold d.
  rewrite tokenLoop_body_child. unfold spec_body_child.
  destruct (spec_after_body (xml.pending d)) as [after|] eqn:Hafter.
  - destruct (spec_after_body_inv _ _ Hafter) as (pre & body & Htoks & Hpre & Hbody).
    destruct (spec_first_start after) as [[[name attr] rest]|] eqn:Hfirst.
    + destruct (spec_first_start_inv _ _ _ _ Hfirst) as (skip & -> & Hskip).
      left. exists pre, body, skip, name, attr, rest. auto.
    + right. split; [|reflexivity]. right.
      exists pre, body, after. split; [exact Htoks|].
      split; [exact Hpre|]. split; [exact Hbody|].
      apply spec_first_start_none_inv, Hfirst.
  - right. split; [|reflexivity]. left.
    apply spec_after_body_none_inv, Hafter.
Qed.

(** X3.  However the tokens of an input split into tokens without a Body
    start element, a Body start element, tokens that are no start elements
    and a start element, the result is what [DecodeElement] returns for
    that start element.  So elements before the first Body are never
    decoded, of several elements after it only the first is, and since end
    elements are passed over an element that follows an empty Body is
    decoded as if it were inside. *)
Theorem parseSOAPResponse_decodes_next_start {V : Type} `{XMLPackage V}
    (data : string) (v : V) (pre skip rest : list xml.Token) (body : xml.Token)
    (name : xml.Name) (attr : list xml.Attr) :
  xml.pending (NewDecoder data) =
    pre ++ body :: skip ++ xml.StartElement name attr :: rest ->
  existsb xml.is_body_start pre = false ->
  xml.is_body_start body = true ->
  existsb xml.is_start skip = false ->
  parseSOAPResponse data v =
  DecodeElement
    {| xml.pending := rest; xml.failure := xml.failure (NewDecoder data) |} v name attr.
Proof.
  intros Htoks Hpre Hbody Hskip.
  unfold parseSOAPResponse. rewrite Htoks, tokenLoop_body_child.
  unfold spec_body_child.
  rewrite spec_after_body_skip by exact Hpre.
  rewrite spec_after_body_here by exact Hbody.
  rewrite spec_first_start_skip by exact Hskip.
  reflexivity.
Qed.

Lemma parseSOAPResponse_decodes_next_start_witness :
  @parseSOAPResponse _ sample.xml_package
    "<r><Body/><x>1</x><y>2</y></r>" sample.destination
  = ({| sample.XMLName := {| xml.Space := EmptyString; xml.Local := "x" |};
        sample.Chardata := "1" |}, None).
Proof.
  etransitivity.
  - eapply (@parseSOAPResponse_decodes_next_start _ sample.xml_package
              "<r><Body/><x>1</x><y>2</y></r>" sample.destination [_] [_]).
    + vm_compute. reflexivity.
    + reflexivity.
    + reflexivity.
    + reflexivity.
  - vm_compute. reflexivity.
Defined.

(** ** SOAPSocketClient.DoRequest *)

Section SocketRuns.

Context {P V : Type} `{ConnPool P} `{XMLPackage V}.

Lemma DoRequest_still_running (sc : SOAPSocketClient P) (payload : string) (v : V)
    (pool1 : P) (c : net.Conn) :
  GetWithTimeout (net.Timeout (Dialer sc)) (Pool sc) = (inl c, pool1) ->
  SOAPSocketClient_DoRequest sc payload [] v =
  {| returned := None; pool_after := pool1; events := [EvGet c] |}.
Proof. intros Hget. simpl. rewrite Hget. reflexivity. Qed.

Lemma DoRequest_read_fails (sc : SOAPSocketClient P) (payload : string)
    (peer : list NetOutcome) (v : V) (pool1 : P) (c : net.Conn) (err : error) :
  GetWithTimeout (net.Timeout (Dialer sc)) (Pool sc) = (inl c, pool1) ->
  SOAPSocketClient_DoRequest sc payload (ReadFails err :: peer) v =
  {| returned := Some (v, Some (ErrReadSocket err));
     pool_after := Remove c pool1;
     events := [EvGet c; EvWrite c (soapEnvelope payload); EvReadResponse c;
                EvRemove c] |}.
Proof. intros Hget. simpl. rewrite Hget. reflexivity. Qed.

(** The pass in which a response is read, case by case. *)
Lemma DoRequest_responds (sc : SOAPSocketClient P) (payload : string)
    (peer : list NetOutcome) (v : V) (pool1 : P) (c : net.Conn)
    (resp : http.Response) :
  GetWithTimeout (net.Timeout (Dialer sc)) (Pool sc) = (inl c, pool1) ->
  let keep := String.eqb (http.Header_Get (http.Header_ resp) "Connection") "keep-alive" in
  let ok := Z.eqb (http.StatusCode resp) http.StatusOK in
  SOAPSocketClient_DoRequest sc payload (Responds resp :: peer) v =
  {| returned :=
       Some (if ok then parseSOAPResponse (http.Body resp) v
             else (v, Some (ErrStatus (http.StatusCode resp))));
     pool_after := if keep then Conn_Close c pool1 else Remove c pool1;
     events :=
       [EvGet c; EvWrite c (soapEnvelope payload); EvReadResponse c]
       ++ (if ok then [EvParse] else [])
       ++ [EvBodyClose; if keep then EvConnClose c else EvRemove c] |}.
Proof.
  intros Hget keep ok. simpl. rewrite Hget. fold keep. fold ok.
  unfold deferred_cleanup. destruct ok, keep; reflexivity.
Qed.

Lemma held_after_app (a b : list Event) (held : list net.Conn) :
  held_after (a ++ b) held = held_after b (held_after a held).
Proof.
  revert held. induction a as [|e a IH]; intros held; [reflexivity|].
  destruct e; simpl; apply IH.
Qed.

Lemma remove_one_head (c : net.Conn) (held : list net.Conn) :
  SpecPool.remove_one c (c :: held) = held.
Proof. simpl. rewrite Nat.eqb_refl. reflexivity. Qed.

(** X4.  A request that returned holds no connection: every connection it
    acquired it has removed from the pool or closed back into it, in each
    pass before the next acquisition.  A request that has not returned
    holds the one connection of its current pass. *)
Theorem DoRequest_gives_back_connections (sc : SOAPSocketClient P)
    (payload : string) (peer : list NetOutcome) (v : V) (held : list net.Conn) :
  let run := SOAPSocketClient_DoRequest sc payload peer v in
  match returned run with
  | Some _ => held_after (events run) held = held
  | None => exists c, held_after (events run) held = c :: held
  end.
Proof.
  revert sc. induction peer as [|o peer IH]; intros sc run; subst run.
  - destruct (GetWithTimeout (net.Timeout (Dialer sc)) (Pool sc))
      as [[c | err] pool1] eqn:Hget.
    + rewrite (DoRequest_still_running _ _ _ _ _ Hget). simpl. eauto.
    + rewrite (DoRequest_acquire_fails _ _ _ _ _ _ Hget). reflexivity.
  - destruct (GetWithTimeout (net.Timeout (Dialer sc)) (Pool sc))
      as [[c | err] pool1] eqn:Hget.
    + destruct o as [e | e | resp].
      * rewrite (DoRequest_write_fails _ _ _ _ _ _ _ Hget).
        specialize (IH (with_pool sc (Remove c pool1))).
        cbn zeta in IH. unfold prepend. cbn [returned events].
        rewrite held_after_app.
        replace (held_after (failed_pass payload c) held) with held
          by (unfold failed_pass; cbn [held_after]; rewrite remove_one_head;
              reflexivity).
        exact IH.
      * rewrite (DoRequest_read_fails _ _ _ _ _ _ _ Hget).
        cbn [returned events held_after]. apply remove_one_head.
      * rewrite (DoRequest_responds _ _ _ _ _ _ _ Hget).
        cbn [returned events].
        destruct (Z.eqb (http.StatusCode resp) http.StatusOK),
                 (String.eqb (http.Header_Get (http.Header_ resp) "Connection")
                             "keep-alive");
          cbn [app held_after]; apply remove_one_head.
    + rewrite (DoRequest_acquire_fails _ _ _ _ _ _ Hget). reflexivity.
Qed.

(** X5.  Every run is a number of passes that end in a failed write,
    at most one per outcome of the peer, followed by one last pass: a
    failed acquisition; or an acquisition with the request still running;
    or a write and a failed read, after which the connection is removed;
    or a write and a read, a parse when the status is 200, the close of the
    body and at last the close or the removal of the connection.  So every
    write carries the whole envelope of the payload, on the connection just
    acquired, a run reads at most one response and parses at most once. *)
Theorem DoRequest_run_shape (sc : SOAPSocketClient P)
    (payload : string) (peer : list NetOutcome) (v : V) :
  let run := SOAPSocketClient_DoRequest sc payload peer v in
  let envelope := soapEnvelope payload in
  exists conns last,
    events run = flat_map (failed_pass payload) conns ++ last
    /\ length conns <= length peer
    /\ (last = [EvGetFailed]
        \/ (exists c, last = [EvGet c] /\ returned run = None)
        \/ (exists c,
              last = [EvGet c; EvWrite c envelope; EvReadResponse c; EvRemove c])
        \/ (exists c work final,
              last = [EvGet c; EvWrite c envelope; EvReadResponse c]
                     ++ work ++ [EvBodyClose; final]
              /\ (work = [] \/ work = [EvParse])
              /\ (final = EvConnClose c \/ final = EvRemove c))).
Proof.
  revert sc. induction peer as [|o peer IH]; intros sc run envelope; subst run.
  - exists []. simpl flat_map. simpl length.
    destruct (GetWithTimeout (net.Timeout (Dialer sc)) (Pool sc))
      as [[c | err] pool1] eqn:Hget.
    + rewrite (DoRequest_still_running _ _ _ _ _ Hget).
      exists [EvGet c]. split; [reflexivity|]. split; [lia|].
      right. left. eauto.
    + rewrite (DoRequest_acquire_fails _ _ _ _ _ _ Hget).
      exists [EvGetFailed]. split; [reflexivity|]. split; [lia|]. left. reflexivity.
  - destruct (GetWithTimeout (net.Timeout (Dialer sc)) (Pool sc))
      as [[c | err] pool1] eqn:Hget.
    + destruct o as [e | e | resp].
      * rewrite (DoRequest_write_fails _ _ _ _ _ _ _ Hget).
        destruct (IH (with_pool sc (Remove c pool1))) as (conns & last & Hev & Hlen & Hlast).
        exists (c :: conns), last. unfold prepend. cbn [events returned].
        rewrite Hev. split.
        { change (flat_map (failed_pass payload) (c :: conns))
            with (failed_pass payload c ++ flat_map (failed_pass payload) conns).
          rewrite app_assoc. reflexivity. }
        split; [simpl; lia | exact Hlast].
      * rewrite (DoRequest_read_fails _ _ _ _ _ _ _ Hget).
        exists [], [EvGet c; EvWrite c envelope; EvReadResponse c; EvRemove c].
        split; [reflexivity|]. split; [simpl; lia|].
        right. right. left. eauto.
      * rewrite (DoRequest_responds _ _ _ _ _ _ _ Hget). cbn [events].
        exists []. eexists. split; [reflexivity|]. split; [simpl; lia|].
        right. right. right.
        exists c, (if Z.eqb (http.StatusCode resp) http.StatusOK then [EvParse] else []),
          (if String.eqb (http.Header_Get (http.Header_ resp) "Connection") "keep-alive"
           then EvConnClose c else EvRemove c).
        split; [reflexivity|]. split.
        { destruct (Z.eqb _ _); auto. }
        { destruct (String.eqb _ _); auto. }
    + rewrite (DoRequest_acquire_fails _ _ _ _ _ _ Hget).
      exists [], [EvGetFailed]. split; [reflexivity|]. split; [simpl; lia|].
      left. reflexivity.
Qed.

(** X6.  A request returns as soon as the peer does anything but fail a
    write: when the outcomes of the peer hold one that is no failed write,
    the run has returned, whatever the pool does. *)
Theorem DoRequest_returns_when_peer_answers (sc : SOAPSocketClient P)
    (payload : string) (peer : list NetOutcome) (v : V) :
  forallb is_write_failure peer = false ->
  exists result, returned (SOAPSocketClient_DoRequest sc payload peer v) = Some result.
Proof.
  revert sc. induction peer as [|o peer IH]; intros sc Hpeer; [discriminate|].
  destruct (GetWithTimeout (net.Timeout (Dialer sc)) (Pool sc))
    as [[c | err] pool1] eqn:Hget.
  - destruct o as [e | e | resp].
    + rewrite (DoRequest_write_fails _ _ _ _ _ _ _ Hget).
      simpl in Hpeer. exact (IH (with_pool sc (Remove c pool1)) Hpeer).
    + rewrite (DoRequest_read_fails _ _ _ _ _ _ _ Hget). eauto.
    + rewrite (DoRequest_responds _ _ _ _ _ _ _ Hget). eauto.
  - rewrite (DoRequest_acquire_fails _ _ _ _ _ _ Hget). eauto.
Qed.

(** X7.  The first outcome of the peer that is no failed write ends the
    request: what the peer would do after it has no part in the run.  The
    request makes no further acquisition, write or read. *)
Theorem DoRequest_stops_at_first_answer (sc : SOAPSocketClient P)
    (payload : string) (errs : list error) (o : NetOutcome)
    (later : list NetOutcome) (v : V) :
  is_write_failure o = false ->
  SOAPSocketClient_DoRequest sc payload (map WriteFails errs ++ o :: later) v =
  SOAPSocketClient_DoRequest sc payload (map WriteFails errs ++ [o]) v.
Proof.
  intros Ho. revert sc. induction errs as [|e errs IH]; intros sc.
  - destruct (GetWithTimeout (net.Timeout (Dialer sc)) (Pool sc))
      as [[c | err] pool1] eqn:Hget.
    + destruct o as [e | e | resp]; [discriminate| |].
      * cbn [map app].
        rewrite !(DoRequest_read_fails _ _ _ _ _ _ _ Hget). reflexivity.
      * cbn [map app].
        rewrite !(DoRequest_responds _ _ _ _ _ _ _ Hget). reflexivity.
    + rewrite !(DoRequest_acquire_fails _ _ _ _ _ _ Hget). reflexivity.
  - destruct (GetWithTimeout (net.Timeout (Dialer sc)) (Pool sc))
      as [[c | err] pool1] eqn:Hget.
    + cbn [map app].
      rewrite !(DoRequest_write_fails _ _ _ _ _ _ _ Hget), IH. reflexivity.
    + rewrite !(DoRequest_acquire_fails _ _ _ _ _ _ Hget). reflexivity.
Qed.

(** X8.  The destination is changed by nothing but the parse of a
    response with the status 200: a run that returned without parsing, be
    it on a failed acquisition, a failed read or another status, returns
    the destination as it was given. *)
Theorem DoRequest_keeps_destination (sc : SOAPSocketClient P)
    (payload : string) (peer : list NetOutcome) (v v' : V) (err : option error) :
  returned (SOAPSocketClient_DoRequest sc payload peer v) = Some (v', err) ->
  ~ In EvParse (events (SOAPSocketClient_DoRequest sc payload peer v)) ->
  v' = v.
Proof.
  revert sc. induction peer as [|o peer IH]; intros sc.
  - destruct (GetWithTimeout (net.Timeout (Dialer sc)) (Pool sc))
      as [[c | e] pool1] eqn:Hget.
    + rewrite (DoRequest_still_running _ _ _ _ _ Hget). discriminate.
    + rewrite (DoRequest_acquire_fails _ _ _ _ _ _ Hget). cbn [returned].
      intros Hret _. injection Hret as <- _. reflexivity.
  - destruct (GetWithTimeout (net.Timeout (Dialer sc)) (Pool sc))
      as [[c | e] pool1] eqn:Hget.
    + destruct o as [e | e | resp].
      * rewrite (DoRequest_write_fails _ _ _ _ _ _ _ Hget).
        unfold prepend. cbn [returned events]. intros Hret Hparse.
        apply (IH (with_pool sc (Remove c pool1)) Hret).
        intros Hin. apply Hparse. apply in_or_app. right. exact Hin.
      * rewrite (DoRequest_read_fails _ _ _ _ _ _ _ Hget). cbn [returned].
        intros Hret _. injection Hret as <- _. reflexivity.
      * rewrite (DoRequest_responds _ _ _ _ _ _ _ Hget). cbn [returned events].
        destruct (Z.eqb (http.StatusCode resp) http.StatusOK).
        { intros _ Hparse. exfalso. apply Hparse. simpl. auto. }
        { intros Hret _. injection Hret as <- _. reflexivity. }
    + rewrite (DoRequest_acquire_fails _ _ _ _ _ _ Hget). cbn [returned].
      intros Hret _. injection Hret as <- _. reflexivity.
Qed.

End SocketRuns.

Lemma DoRequest_returns_when_peer_answers_witness :
  exists result,
    returned
      (@SOAPSocketClient_DoRequest _ _ (spec_pool sample.os) sample.xml_package
         sample.socket_client "<ns:logon/>"
         [WriteFails sample.broken_pipe; ReadFails (LibError "unexpected EOF");
          WriteFails sample.broken_pipe] sample.destination)
    = Some result.
Proof.
  apply (@DoRequest_returns_when_peer_answers _ _ (spec_pool sample.os)
           sample.xml_package sample.socket_client "<ns:logon/>"
           [WriteFails sample.broken_pipe; ReadFails (LibError "unexpected EOF");
            WriteFails sample.broken_pipe] sample.destination).
  reflexivity.
Defined.

Lemma DoRequest_stops_at_first_answer_witness :
  @SOAPSocketClient_DoRequest _ _ (spec_pool sample.os) sample.xml_package
    sample.socket_client "<ns:logon/>"
    (map WriteFails [sample.broken_pipe]
     ++ Responds (sample.response 200 ["close"])
     :: [WriteFails sample.broken_pipe; Responds (sample.response 503 [])])
    sample.destination
  = @SOAPSocketClient_DoRequest _ _ (spec_pool sample.os) sample.xml_package
      sample.socket_client "<ns:logon/>"
      (map WriteFails [sample.broken_pipe] ++ [Responds (sample.response 200 ["close"])])
      sample.destination.
Proof.
  apply (@DoRequest_stops_at_first_answer _ _ (spec_pool sample.os)
           sample.xml_package sample.socket_client "<ns:logon/>"
           [sample.broken_pipe] (Responds (sample.response 200 ["close"]))).
  reflexivity.
Defined.

Lemma DoRequest_keeps_destination_witness :
  let run :=
    @SOAPSocketClient_DoRequest _ _ (spec_pool sample.os) sample.xml_package
      sample.socket_client "<ns:logon/>"
      [WriteFails sample.broken_pipe; Responds (sample.response 503 ["keep-alive"])]
      sample.destination in
  returned run = Some (sample.destination, Some (ErrStatus 503))
  /\ sample.destination = sample.destination.
Proof.
  intros run.
  assert (Hret : returned run = Some (sample.destination, Some (ErrStatus 503)))
    by reflexivity.
  split; [exact Hret|].
  apply (@DoRequest_keeps_destination _ _ (spec_pool sample.os) sample.xml_package
           sample.socket_client "<ns:logon/>"
           [WriteFails sample.broken_pipe; Responds (sample.response 503 ["keep-alive"])]
           sample.destination sample.destination (Some (ErrStatus 503)) Hret).
  cbv. intuition discriminate.
Defined.

(** ** newSOAPRequest and SOAPHTTPClient.DoRequest *)

Section HTTP.

Context {V : Type} `{HTTPPackage} `{XMLPackage V}.
Variable Version : string.

Lemma Header_Get_Set_same (h : http.Header) (key value : string) :
  http.Header_Get (request.Header_Set h key value) key = value.
Proof. unfold request.Header_Set. simpl. rewrite String.eqb_refl. reflexivity. Qed.

Lemma Header_Get_filter_other (h : http.Header) (key other : string) :
  other <> key ->
  http.Header_Get
    (List.filter (fun kv => negb (String.eqb (fst kv) key)) h) other
  = http.Header_Get h other.
Proof.
  intros Hne. induction h as [|[k vs] h IH]; [reflexivity|].
  simpl. destruct (String.eqb k key) eqn:Hk; simpl.
  - apply String.eqb_eq in Hk. subst k.
    assert (Hne' : String.eqb key other = false)
      by (apply String.eqb_neq; congruence).
    rewrite Hne'. exact IH.
  - destruct (String.eqb k other); [reflexivity | exact IH].
Qed.

Lemma Header_Get_Set_other (h : http.Header) (key value other : string) :
  other <> key ->
  http.Header_Get (request.Header_Set h key value) other = http.Header_Get h other.
Proof.
  intros Hne. unfold request.Header_Set. simpl.
  assert (Hne' : String.eqb key other = false)
    by (apply String.eqb_neq; congruence).
  rewrite Hne'. apply Header_Get_filter_other, Hne.
Qed.

(** [DoRequest] builds its request as [newSOAPRequest] does. *)
Lemma SOAPHTTPClient_DoRequest_request (sc : SOAPHTTPClient)
    (ctx : option context.Ctx) (payload : string) (v : V) :
  SOAPHTTPClient_DoRequest Version sc ctx payload v =
  match newSOAPRequest Version ctx (URI sc) payload with
  | inr err =>
      {| http_returned := (v, Some err); http_sent := []; http_body_closed := false |}
  | inl req =>
      match Client_Do (Client sc) req with
      | inr err =>
          {| http_returned := (v, Some err); http_sent := [req];
             http_body_closed := false |}
      | inl resp =>
          {| http_returned :=
               if Z.eqb (http.StatusCode resp) http.StatusOK
               then parseSOAPResponse (http.Body resp) v
               else (v, Some (ErrStatus (http.StatusCode resp)));
             http_sent := [req]; http_body_closed := true |}
      end
  end.
Proof.
  unfold SOAPHTTPClient_DoRequest, newSOAPRequest.
  destruct (NewRequest request.MethodPost (URI sc) (soapEnvelope payload))
    as [req | err]; [|reflexivity].
  destruct (Client_Do _ _) as [resp | err]; [|reflexivity].
  destruct (Z.eqb (http.StatusCode resp) http.StatusOK); reflexivity.
Qed.

Lemma newSOAPRequest_error_only (ctx : option context.Ctx) (url payload : string) :
  match newSOAPRequest Version ctx url payload with
  | inl _ => True
  | inr err => NewRequest_error request.MethodPost url = Some err
  end.
Proof.
  unfold newSOAPRequest, NewRequest.
  destruct (NewRequest_error request.MethodPost url); [reflexivity | exact I].
Qed.

(** X9.  A request [newSOAPRequest] returns is a POST to the given URL
    whose body is the envelope of the payload and whose context is the one
    given, the background context for a nil one.  Its header holds two
    keys and no other: User-Agent with the one value
    kcc-go-fakesoap/Version, and Content-Type with the one value text/xml
    with the charset utf-8; [Header.Get] gives these two values and the
    empty string for every other key.  [newSOAPRequest] fails only with
    the error of [http.NewRequest]. *)
Theorem newSOAPRequest_shape (ctx : option context.Ctx) (url payload : string) :
  match newSOAPRequest Version ctx url payload with
  | inl req =>
      NewRequest_error request.MethodPost url = None
      /\ request.Method req = "POST"
      /\ request.URL req = url
      /\ request.Body req = soapEnvelope payload
      /\ request.Ctx req = ctx
      /\ request.Header req =
         [("User-Agent", ["kcc-go-fakesoap/" +:+ Version]);
          ("Content-Type", ["text/xml; charset=utf-8"])]
      /\ http.Header_Get (request.Header req) "Content-Type" = "text/xml; charset=utf-8"
      /\ http.Header_Get (request.Header req) "User-Agent"
         = "kcc-go-fakesoap/" +:+ Version
      /\ (forall key, key <> "Content-Type" -> key <> "User-Agent" ->
          http.Header_Get (request.Header req) key = EmptyString)
  | inr err => NewRequest_error request.MethodPost url = Some err
  end.
Proof.
  unfold newSOAPRequest, NewRequest.
  destruct (NewRequest_error request.MethodPost url) as [err|]; [reflexivity|].
  split; [reflexivity|]. split; [destruct ctx; reflexivity|].
  split; [destruct ctx; reflexivity|]. split; [destruct ctx; reflexivity|].
  split; [destruct ctx; reflexivity|].
  split; [destruct ctx; reflexivity|].
  split; [|split].
  - cbn [request.SetHeader request.Header].
    rewrite Header_Get_Set_other by discriminate.
    apply Header_Get_Set_same.
  - cbn [request.SetHeader request.Header]. apply Header_Get_Set_same.
  - intros key Hct Hua. cbn [request.SetHeader request.Header].
    rewrite !Header_Get_Set_other by assumption.
    destruct ctx; reflexivity.
Qed.

(** X10.  [SOAPHTTPClient.DoRequest] hands to [Client.Do] the very request
    [newSOAPRequest] builds for the URI of the client, once.  When that
    request cannot be built, it returns the error of [http.NewRequest] as
    it is, sends nothing and leaves the destination as it was. *)
Theorem SOAPHTTPClient_DoRequest_sends_newSOAPRequest (sc : SOAPHTTPClient)
    (ctx : option context.Ctx) (payload : string) (v : V) :
  let run := SOAPHTTPClient_DoRequest Version sc ctx payload v in
  match newSOAPRequest Version ctx (URI sc) payload with
  | inl req => http_sent run = [req]
  | inr err =>
      http_sent run = [] /\ http_returned run = (v, Some err)
      /\ http_body_closed run = false
      /\ NewRequest_error request.MethodPost (URI sc) = Some err
  end.
Proof.
  intros run. subst run. rewrite SOAPHTTPClient_DoRequest_request.
  pose proof (newSOAPRequest_error_only ctx (URI sc) payload) as Herr.
  destruct (newSOAPRequest Version ctx (URI sc) payload) as [req | err].
  - destruct (Client_Do (Client sc) req); reflexivity.
  - repeat split. exact Herr.
Qed.

(** X11.  [SOAPHTTPClient.DoRequest] makes at most one exchange and never
    a second attempt.  The body of the response is closed exactly when a
    response arrived, whatever its status.  An error of the exchange is
    returned as it is, and a status other than 200 gives the status error;
    in both cases the destination is as it was. *)
Theorem SOAPHTTPClient_DoRequest_outcomes (sc : SOAPHTTPClient)
    (ctx : option context.Ctx) (payload : string) (v : V) :
  let run := SOAPHTTPClient_DoRequest Version sc ctx payload v in
  length (http_sent run) <= 1
  /\ (http_body_closed run = true <->
      exists req resp, http_sent run = [req] /\ Client_Do (Client sc) req = inl resp)
  /\ (forall req err,
        http_sent run = [req] -> Client_Do (Client sc) req = inr err ->
        http_returned run = (v, Some err))
  /\ (forall req resp,
        http_sent run = [req] -> Client_Do (Client sc) req = inl resp ->
        http.StatusCode resp <> http.StatusOK ->
        http_returned run = (v, Some (ErrStatus (http.StatusCode resp))))
  /\ (forall req resp,
        http_sent run = [req] -> Client_Do (Client sc) req = inl resp ->
        http.StatusCode resp = http.StatusOK ->
        http_returned run = parseSOAPResponse (http.Body resp) v).
Proof.
  intros run. subst run. rewrite SOAPHTTPClient_DoRequest_request.
  destruct (newSOAPRequest Version ctx (URI sc) payload) as [req | err].
  - destruct (Client_Do (Client sc) req) as [resp | err] eqn:Hdo;
      cbn [http_sent http_body_closed http_returned length].
    + split; [lia|]. split; [split; [eauto | reflexivity]|].
      split; [|split].
      * intros req' err Hsent Hdo'. injection Hsent as <-. congruence.
      * intros req' resp' Hsent Hdo' Hstatus. injection Hsent as <-.
        rewrite Hdo in Hdo'. injection Hdo' as <-.
        apply Z.eqb_neq in Hstatus. rewrite Hstatus. reflexivity.
      * intros req' resp' Hsent Hdo' Hstatus. injection Hsent as <-.
        rewrite Hdo in Hdo'. injection Hdo' as <-.
        apply Z.eqb_eq in Hstatus. rewrite Hstatus. reflexivity.
    + split; [lia|]. split.
      { split; [discriminate|].
        intros (req' & resp & Hsent & Hdo'). injection Hsent as <-. congruence. }
      split; [|split].
      * intros req' err' Hsent Hdo'. injection Hsent as <-.
        rewrite Hdo in Hdo'. injection Hdo' as <-. reflexivity.
      * intros req' resp Hsent Hdo'. injection Hsent as <-. congruence.
      * intros req' resp Hsent Hdo'. injection Hsent as <-. congruence.
  - cbn [http_sent http_body_closed http_returned length].
    split; [lia|]. split.
    { split; [discriminate|]. intros (req & resp & Hsent & _). discriminate. }
    split; [|split]; intros ? ? Hsent; discriminate.
Qed.

End HTTP.

(** X12.  The two clients answer alike: on the same response, the socket
    client returns what the HTTP client returns, the status error for a
    status other than 200 and the result of [parseSOAPResponse] on the
    body otherwise, with the same destination. *)
Theorem clients_agree_on_response {P V : Type}
    `{ConnPool P} `{HTTPPackage} `{XMLPackage V}
    (Version : string) (hc : SOAPHTTPClient) (sc : SOAPSocketClient P)
    (ctx : option context.Ctx) (payload : string) (v : V)
    (req : request.Request) (resp : http.Response)
    (peer : list NetOutcome) (c : net.Conn) (pool1 : P) :
  let http_run := SOAPHTTPClient_DoRequest Version hc ctx payload v in
  let socket_run := SOAPSocketClient_DoRequest sc payload (Responds resp :: peer) v in
  http_sent http_run = [req] ->
  Client_Do (Client hc) req = inl resp ->
  GetWithTimeout (net.Timeout (Dialer sc)) (Pool sc) = (inl c, pool1) ->
  returned socket_run = Some (http_returned http_run).
Proof.
  intros http_run socket_run. subst http_run socket_run.
  rewrite SOAPHTTPClient_DoRequest_request.
  destruct (newSOAPRequest Version ctx (URI hc) payload) as [req' | err];
    [|discriminate].
  destruct (Client_Do (Client hc) req') as [resp' | err] eqn:Hdo';
    cbn [http_sent http_returned]; intros Hsent Hdo Hget;
    injection Hsent as ->; rewrite Hdo in Hdo'; [|discriminate].
  injection Hdo' as <-.
  rewrite (DoRequest_responds _ _ _ _ _ _ _ Hget). reflexivity.
Qed.

Lemma clients_agree_on_response_witness :
  let http_run :=
    @SOAPHTTPClient_DoRequest _ sample_http.http_package sample.xml_package
      sample_http.Version (sample_http.http_client "http://kopano.local/") None
      "<ns:logon/>" sample.destination in
  let socket_run :=
    @SOAPSocketClient_DoRequest _ _ (spec_pool sample.os) sample.xml_package
      sample.socket_client "<ns:logon/>"
      [Responds (sample.response 200 ["keep-alive"])] sample.destination in
  returned socket_run = Some (http_returned http_run)
  /\ http_returned http_run
     = ({| sample.XMLName := {| xml.Space := "urn:zarafa"; xml.Local := "logonResponse" |};
           sample.Chardata := "42" |}, None).
Proof.
  intros http_run socket_run. split.
  - eapply (@clients_agree_on_response _ _ (spec_pool sample.os)
              sample_http.http_package sample.xml_package sample_http.Version
              (sample_http.http_client "http://kopano.local/") sample.socket_client
              None "<ns:logon/>" sample.destination _
              (sample.response 200 ["keep-alive"]) [] 1).
    + reflexivity.
    + reflexivity.
    + reflexivity.
  - vm_compute. reflexivity.
Defined.

Lemma newSOAPRequest_shape_witness :
  match @newSOAPRequest sample_http.http_package sample_http.Version
          (Some 7) "http://kopano.local/" "<ns:logon/>" with
  | inl req =>
      request.Ctx req = Some 7
      /\ request.Header req =
         [("User-Agent", ["kcc-go-fakesoap/0.0.0-dev"]);
          ("Content-Type", ["text/xml; charset=utf-8"])]
      /\ http.Header_Get (request.Header req) "User-Agent" = "kcc-go-fakesoap/0.0.0-dev"
      /\ http.Header_Get (request.Header req) "Accept" = EmptyString
  | inr _ => False
  end.
Proof.
  pose proof (@newSOAPRequest_shape sample_http.http_package sample_http.Version
                (Some 7) "http://kopano.local/" "<ns:logon/>") as Hshape.
  destruct (@newSOAPRequest sample_http.http_package sample_http.Version
              (Some 7) "http://kopano.local/" "<ns:logon/>") as [req | err].
  - destruct Hshape as (_ & _ & _ & _ & Hctx & Hheader & _ & Hua & Hother).
    split; [exact Hctx|]. split; [exact Hheader|]. split; [exact Hua|].
    apply Hother; discriminate.
  - discriminate Hshape.
Defined.

Lemma SOAPHTTPClient_DoRequest_outcomes_witness :
  http_returned
    (@SOAPHTTPClient_DoRequest _ sample_http.http_package sample.xml_package
       sample_http.Version (sample_http.http_client "http://kopano.local/missing")
       None "<ns:logon/>" sample.destination)
  = (sample.destination, Some (ErrStatus 404))
  /\ http_returned
       (@SOAPHTTPClient_DoRequest _ sample_http.http_package sample.xml_package
          sample_http.Version (sample_http.http_client "http://elsewhere/")
          None "<ns:logon/>" sample.destination)
     = (sample.destination, Some (LibError "dial tcp: connection refused")).
Proof.
  split.
  - destruct (@SOAPHTTPClient_DoRequest_outcomes _ sample_http.http_package
                sample.xml_package sample_http.Version
                (sample_http.http_client "http://kopano.local/missing")
                None "<ns:logon/>" sample.destination)
      as (_ & _ & _ & Hstatus & _).
    eapply (Hstatus _ {| http.StatusCode := 404; http.Header_ := [];
                         http.Body := "not found" |});
      [reflexivity | reflexivity | discriminate].
  - destruct (@SOAPHTTPClient_DoRequest_outcomes _ sample_http.http_package
                sample.xml_package sample_http.Version
                (sample_http.http_client "http://elsewhere/")
                None "<ns:logon/>" sample.destination)
      as (_ & _ & Herr & _).
    eapply Herr; reflexivity.
Defined.

(** ** NewSOAPClient *)

(** X13.  For a URI with the scheme file, when the pool cannot be made
    [NewSOAPClient] returns the error of [NewPool] as it is, and no
    client. *)
Theorem NewSOAPClient_pool_error {P : Type} `{URLPackage} `{ConnPool P}
    (vars : PackageVars) (uri : url.URL) (err : error) :
  url.Scheme uri = "file" ->
  NewPool 0 (DefaultUnixMaxConnections vars)
          (connect (DefaultUnixDialer vars) (url.Path uri)) = inr err ->
  NewSOAPClient vars (Some uri) = Returned (inr err).
Proof.
  intros Hscheme Hpool. unfold NewSOAPClient. rewrite Hscheme.
  cbn [String.eqb Ascii.eqb Bool.eqb]. cbv zeta. rewrite Hpool. reflexivity.
Qed.

Lemma NewSOAPClient_pool_error_witness :
  @NewSOAPClient SpecPool.t sample.url_package (sample_http.strict_pool sample.os)
    {| DefaultURI := DefaultURI sample.vars;
       DefaultHTTPClient := sample.http_client;
       DefaultUnixDialer := DefaultUnixDialer sample.vars;
       DefaultUnixMaxConnections := 0 |}
    (Some {| url.Scheme := "file"; url.Opaque := EmptyString; url.Host := EmptyString;
             url.Path := sample.socket_path; url.RawQuery := EmptyString;
             url.Fragment := EmptyString |})
  = Returned (inr (LibError "pool: capacity below one")).
Proof.
  apply (@NewSOAPClient_pool_error SpecPool.t sample.url_package
           (sample_http.strict_pool sample.os)); reflexivity.
Defined.

(** ** http.go *)

Section Init.

Context `{StrconvPackage}.

Lemma from_env_unusable (getenv : string -> string) (name : string)
    (bitSize current : Z) :
  http_go.unusable getenv name bitSize ->
  http_go.from_env getenv name bitSize current = current.
Proof.
  unfold http_go.from_env. intros [Hunset | [err Herr]].
  - rewrite Hunset. reflexivity.
  - rewrite Herr. destruct (negb _); reflexivity.
Qed.

Lemma from_env_parsed (getenv : string -> string) (name : string)
    (bitSize current n : Z) :
  getenv name <> EmptyString ->
  ParseInt (getenv name) 10 bitSize = inl n ->
  http_go.from_env getenv name bitSize current = n.
Proof.
  unfold http_go.from_env. intros Hset Hparse.
  apply String.eqb_neq in Hset. rewrite Hset, Hparse. reflexivity.
Qed.

(** X14.  [init] never fails on its environment, it passes over what it
    cannot use: when each of the six numbers is unset or does not parse,
    and the dual stack variable is none of the six words, the settings are
    the declared ones and the client, its transport and the dialer are
    those of an empty environment. *)
Theorem init_keeps_declared_values (getenv : string -> string) :
  http_go.unusable getenv "KCC_GO_HTTP_TIMEOUT" 64 ->
  http_go.unusable getenv "KCC_GO_HTTP_MAX_IDLE_CONNS" 0 ->
  http_go.unusable getenv "KCC_GO_HTTP_MAX_IDLE_CONNS_PER_HOST" 0 ->
  http_go.unusable getenv "KCC_GO_HTTP_IDLE_CONN_TIMEOUT" 64 ->
  http_go.unusable getenv "KCC_GO_HTTP_DIAL_TIMEOUT" 64 ->
  http_go.unusable getenv "KCC_GO_HTTP_KEEPALIVE" 64 ->
  ~ In (getenv "KCC_GO_HTTP_DUALSTACK") ["off"; "false"; "no"; "on"; "true"; "yes"] ->
  http_go.settings (http_go.init getenv) = http_go.declared
  /\ http_go.DefaultHTTPClient (http_go.init getenv)
     = http_go.DefaultHTTPClient (http_go.init (fun _ => EmptyString))
  /\ http_go.dialer (http_go.init getenv)
     = {| net.Timeout := 30 * time.Second; net.KeepAlive := 120 * time.Second;
          net.DualStack := true |}.
Proof.
  intros H1 H2 H3 H4 H5 H6 Hdual.
  assert (Hds : http_go.dualstack_from_env getenv true = true).
  { unfold http_go.dualstack_from_env.
    set (s := getenv "KCC_GO_HTTP_DUALSTACK") in *. cbv zeta.
    destruct (negb (String.eqb s EmptyString)); [|reflexivity].
    destruct (String.eqb s "off" || String.eqb s "false" || String.eqb s "no") eqn:E.
    - exfalso. apply Hdual.
      apply orb_true_iff in E as [E | E]; [apply orb_true_iff in E as [E | E]|];
        apply String.eqb_eq in E; rewrite E; simpl; auto.
    - destruct (String.eqb s "on" || String.eqb s "true" || String.eqb s "yes");
        reflexivity. }
  unfold http_go.init.
  rewrite !from_env_unusable by assumption.
  cbn [http_go.DefaultHTTPDualStack http_go.declared] in *.
  rewrite Hds.
  repeat split.
Qed.

(** X15.  Dual stack dialing is on unless KCC_GO_HTTP_DUALSTACK is one of
    off, false and no, written so: every other value, also one [init] does
    not know, and no value at all leave it on. *)
Theorem init_dualstack (getenv : string -> string) :
  net.DualStack (http_go.dialer (http_go.init getenv)) = false <->
  In (getenv "KCC_GO_HTTP_DUALSTACK") ["off"; "false"; "no"].
Proof.
  unfold http_go.init. cbn [http_go.dialer net.DualStack].
  unfold http_go.dualstack_from_env.
  cbn [http_go.DefaultHTTPDualStack http_go.declared].
  set (s := getenv "KCC_GO_HTTP_DUALSTACK").
  destruct (String.eqb s EmptyString) eqn:Hempty.
  - apply String.eqb_eq in Hempty. rewrite Hempty. simpl.
    split; [discriminate|]. intros [E | [E | [E | []]]]; discriminate.
  - cbn [negb].
    destruct (String.eqb s "off") eqn:E1.
    { apply String.eqb_eq in E1. rewrite E1. simpl. split; auto. }
    destruct (String.eqb s "false") eqn:E2.
    { apply String.eqb_eq in E2. rewrite E2. simpl. split; auto. }
    destruct (String.eqb s "no") eqn:E3.
    { apply String.eqb_eq in E3. rewrite E3. simpl. split; auto. }
    apply String.eqb_neq in E1, E2, E3. cbn [orb].
    split.
    + destruct (_ || _ || _); discriminate.
    + intros [E | [E | [E | []]]]; congruence.
Qed.

Lemma wrap64_small (z : Z) :
  (-9223372036854775808 <= z <= 9223372036854775807)%Z -> time.wrap64 z = z.
Proof. intros Hz. unfold time.wrap64. rewrite Z.mod_small by lia. lia. Qed.

Lemma wrap64_range (z : Z) :
  (-9223372036854775808 <= time.wrap64 z <= 9223372036854775807)%Z.
Proof.
  unfold time.wrap64.
  pose proof (Z.mod_pos_bound (z + 9223372036854775808) 18446744073709551616).
  lia.
Qed.

(** X16.  A value of KCC_GO_HTTP_TIMEOUT that parses becomes the timeout
    of the client as it is, without a check of its sign or size, counted in
    seconds: for a number of at most 9223372036 in size the timeout is that
    many seconds; for a larger one the 64 bit product wraps around and the
    timeout is another duration. *)
Theorem init_timeout_seconds (getenv : string -> string) (n : Z) :
  getenv "KCC_GO_HTTP_TIMEOUT" <> EmptyString ->
  ParseInt (getenv "KCC_GO_HTTP_TIMEOUT") 10 64 = inl n ->
  let client := http_go.DefaultHTTPClient (http_go.init getenv) in
  http_go.DefaultHTTPTimeoutSeconds (http_go.settings (http_go.init getenv)) = n
  /\ ((-9223372036 <= n <= 9223372036)%Z ->
      http.Timeout client = (n * 1000000000)%Z)
  /\ ((n < -9223372036 \/ 9223372036 < n)%Z ->
      http.Timeout client <> (n * 1000000000)%Z).
Proof.
  intros Hset Hparse client. subst client. unfold http_go.init.
  cbn [http_go.DefaultHTTPClient http_go.settings http_go.DefaultHTTPTimeoutSeconds
       http.Timeout].
  rewrite (from_env_parsed _ _ _ _ _ Hset Hparse).
  unfold time.Seconds, time.Second.
  split; [reflexivity|]. split.
  - intros Hn. apply wrap64_small. lia.
  - intros Hn Heq.
    pose proof (wrap64_range (n * 1000000000)) as Hrange.
    rewrite Heq in Hrange. lia.
Qed.

(** X17.  [init] reads the eight variables of its own and nothing else of
    the environment: two environments that agree on them give the same
    settings, dialer, transport and client.  In every environment the
    client uses the transport, the transport dials with the dialer, the
    TLS handshake timeout is 10 seconds and the expect-continue timeout is
    1 second. *)
Theorem init_reads_only_its_variables (g1 g2 : string -> string) :
  (forall name, In name http_go.variables -> g1 name = g2 name) ->
  http_go.init g1 = http_go.init g2
  /\ http.Transport_ (http_go.DefaultHTTPClient (http_go.init g1))
     = http_go.DefaultHTTPTransport (http_go.init g1)
  /\ http.DialContext (http_go.DefaultHTTPTransport (http_go.init g1))
     = http_go.dialer (http_go.init g1)
  /\ http.TLSHandshakeTimeout (http_go.DefaultHTTPTransport (http_go.init g1))
     = 10000000000%Z
  /\ http.ExpectContinueTimeout (http_go.DefaultHTTPTransport (http_go.init g1))
     = 1000000000%Z.
Proof.
  intros Hagree. split; [|repeat split].
  unfold http_go.init, http_go.from_env, http_go.dualstack_from_env.
  rewrite (Hagree "KCC_GO_DEBUG") by (simpl; tauto).
  rewrite (Hagree "KCC_GO_HTTP_TIMEOUT") by (simpl; tauto).
  rewrite (Hagree "KCC_GO_HTTP_MAX_IDLE_CONNS") by (simpl; tauto).
  rewrite (Hagree "KCC_GO_HTTP_MAX_IDLE_CONNS_PER_HOST") by (simpl; tauto).
  rewrite (Hagree "KCC_GO_HTTP_IDLE_CONN_TIMEOUT") by (simpl; tauto).
  rewrite (Hagree "KCC_GO_HTTP_DIAL_TIMEOUT") by (simpl; tauto).
  rewrite (Hagree "KCC_GO_HTTP_KEEPALIVE") by (simpl; tauto).
  rewrite (Hagree "KCC_GO_HTTP_DUALSTACK") by (simpl; tauto).
  reflexivity.
Qed.

End Init.

Lemma init_keeps_declared_values_witness :
  let getenv :=
    sample_http.getenv
      [("KCC_GO_HTTP_TIMEOUT", "soon"); ("KCC_GO_HTTP_KEEPALIVE", "99999999999999999999");
       ("KCC_GO_HTTP_DUALSTACK", "OFF"); ("HOME", "/root")] in
  http_go.settings (@http_go.init sample_http.strconv_package getenv)
  = http_go.declared
  /\ http_go.DefaultHTTPClient (@http_go.init sample_http.strconv_package getenv)
     = sample.http_client.
Proof.
  intros getenv.
  destruct (@init_keeps_declared_values sample_http.strconv_package getenv)
    as (Hsettings & Hclient & _).
  - right. eexists. reflexivity.
  - left. reflexivity.
  - left. reflexivity.
  - left. reflexivity.
  - left. reflexivity.
  - right. eexists. reflexivity.
  - cbv. intuition discriminate.
  - split; [exact Hsettings|]. rewrite Hclient. reflexivity.
Defined.

Lemma init_dualstack_witness :
  net.DualStack
    (http_go.dialer
       (@http_go.init sample_http.strconv_package
          (sample_http.getenv [("KCC_GO_HTTP_DUALSTACK", "no")]))) = false
  /\ net.DualStack
       (http_go.dialer
          (@http_go.init sample_http.strconv_package
             (sample_http.getenv [("KCC_GO_HTTP_DUALSTACK", "0")]))) = true.
Proof.
  split.
  - apply (@init_dualstack sample_http.strconv_package). simpl. auto.
  - apply not_false_iff_true. intros Hoff.
    apply (@init_dualstack sample_http.strconv_package) in Hoff.
    cbv in Hoff. intuition discriminate.
Defined.

Lemma init_timeout_seconds_witness :
  http.Timeout
    (http_go.DefaultHTTPClient
       (@http_go.init sample_http.strconv_package
          (sample_http.getenv [("KCC_GO_HTTP_TIMEOUT", "-3")]))) = (-3000000000)%Z
  /\ http.Timeout
       (http_go.DefaultHTTPClient
          (@http_go.init sample_http.strconv_package
             (sample_http.getenv [("KCC_GO_HTTP_TIMEOUT", "9223372037")])))
     <> 9223372037000000000%Z.
Proof.
  split.
  - destruct (@init_timeout_seconds sample_http.strconv_package
                (sample_http.getenv [("KCC_GO_HTTP_TIMEOUT", "-3")]) (-3))
      as (_ & Hexact & _); [discriminate | reflexivity |].
    apply Hexact. lia.
  - destruct (@init_timeout_seconds sample_http.strconv_package
                (sample_http.getenv [("KCC_GO_HTTP_TIMEOUT", "9223372037")]) 9223372037)
      as (_ & _ & Hwraps); [discriminate | reflexivity |].
    apply Hwraps. lia.
Defined.

Lemma init_reads_only_its_variables_witness :
  @http_go.init sample_http.strconv_package
    (sample_http.getenv [("KCC_GO_HTTP_TIMEOUT", "5"); ("KCC_GO_HTTP_RETRIES", "3")])
  = @http_go.init sample_http.strconv_package
      (sample_http.getenv [("KCC_GO_HTTP_TIMEOUT", "5")]).
Proof.
  apply (@init_reads_only_its_variables sample_http.strconv_package).
  intros name Hin. cbv in Hin.
  repeat (destruct Hin as [<- | Hin]; [reflexivity|]). contradiction.
Defined.

(** ** Two requests on one client *)

(** X18.  A connection kept alive serves the next request.  Take the
    pool of the specification with no idle connection and room for one
    more, and let the dial succeed.  After a request that read a response
    with the Connection header keep-alive, that connection is the one idle
    connection of the pool, and the next request on the client acquires it
    first, without a dial. *)
Theorem DoRequest_reuses_kept_connection {V : Type} `{XMLPackage V}
    (os : net.DialCall -> list (net.Conn + error))
    (sc : SOAPSocketClient SpecPool.t) (payload payload' : string)
    (resp : http.Response) (peer' : list NetOutcome) (v v' : V)
    (c : net.Conn) (later : list (net.Conn + error)) :
  SpecPool.idle (Pool sc) = [] ->
  length (SpecPool.acquired (Pool sc)) < SpecPool.capacity (Pool sc) ->
  SpecPool.dials (Pool sc) = inl c :: later ->
  http.Header_Get (http.Header_ resp) "Connection" = "keep-alive" ->
  let first :=
    @SOAPSocketClient_DoRequest _ _ (spec_pool os) _ sc payload [Responds resp] v in
  let second :=
    @SOAPSocketClient_DoRequest _ _ (spec_pool os) _
      (with_pool sc (pool_after first)) payload' peer' v' in
  SpecPool.idle (pool_after first) = [c]
  /\ SpecPool.acquired (pool_after first) = SpecPool.acquired (Pool sc)
  /\ SpecPool.dials (pool_after first) = later
  /\ (exists evs, events second = EvGet c :: evs)
  /\ (peer' = [] -> SpecPool.dials (pool_after second) = later).
Proof.
  intros Hidle Hroom Hdials Hkeep first second.
  assert (Hacq : @GetWithTimeout _ (spec_pool os) (net.Timeout (Dialer sc)) (Pool sc)
                 = (inl c, {| SpecPool.capacity := SpecPool.capacity (Pool sc);
                              SpecPool.idle := [];
                              SpecPool.acquired := c :: SpecPool.acquired (Pool sc);
                              SpecPool.dials := later |})).
  { cbn [GetWithTimeout spec_pool]. unfold SpecPool.acquire.
    rewrite Hidle, Hdials.
    apply Nat.ltb_lt in Hroom. rewrite Hroom. reflexivity. }
  assert (Hfirst : pool_after first
                   = {| SpecPool.capacity := SpecPool.capacity (Pool sc);
                        SpecPool.idle := [c];
                        SpecPool.acquired := SpecPool.acquired (Pool sc);
                        SpecPool.dials := later |}).
  { subst first. rewrite (DoRequest_responds _ _ _ _ _ _ _ Hacq).
    cbn [pool_after]. rewrite Hkeep.
    cbn [String.eqb Ascii.eqb Bool.eqb Conn_Close spec_pool].
    unfold SpecPool.release, SpecPool.holds. cbn [SpecPool.acquired existsb].
    rewrite Nat.eqb_refl. cbn [orb SpecPool.capacity SpecPool.idle SpecPool.dials app].
    rewrite remove_one_head. reflexivity. }
  rewrite Hfirst. cbn [SpecPool.idle SpecPool.acquired SpecPool.dials].
  split; [reflexivity|]. split; [reflexivity|]. split; [reflexivity|].
  assert (Hacq2 : @GetWithTimeout _ (spec_pool os)
                    (net.Timeout (Dialer (with_pool sc (pool_after first))))
                    (Pool (with_pool sc (pool_after first)))
                  = (inl c, {| SpecPool.capacity := SpecPool.capacity (Pool sc);
                               SpecPool.idle := [];
                               SpecPool.acquired := c :: SpecPool.acquired (Pool sc);
                               SpecPool.dials := later |})).
  { cbn [with_pool Pool Dialer]. rewrite Hfirst. reflexivity. }
  subst second. split.
  - destruct peer' as [|[e | e | resp'] peer'].
    + rewrite (DoRequest_still_running _ _ _ _ _ Hacq2). eauto.
    + rewrite (DoRequest_write_fails _ _ _ _ _ _ _ Hacq2).
      unfold prepend, failed_pass. cbn [events app]. eauto.
    + rewrite (DoRequest_read_fails _ _ _ _ _ _ _ Hacq2). cbn [events]. eauto.
    + rewrite (DoRequest_responds _ _ _ _ _ _ _ Hacq2). cbn [events app]. eauto.
  - intros ->. rewrite (DoRequest_still_running _ _ _ _ _ Hacq2). reflexivity.
Qed.

Lemma DoRequest_reuses_kept_connection_witness :
  let first :=
    @SOAPSocketClient_DoRequest _ _ (spec_pool sample.os) sample.xml_package
      sample.socket_client "<ns:logon/>"
      [Responds (sample.response 200 ["keep-alive"])] sample.destination in
  let second :=
    @SOAPSocketClient_DoRequest _ _ (spec_pool sample.os) sample.xml_package
      (with_pool sample.socket_client (pool_after first)) "<ns:logoff/>"
      [Responds (sample.response 200 ["close"])] sample.destination in
  SpecPool.idle (pool_after first) = [1]
  /\ (exists evs, events second = EvGet 1 :: evs).
Proof.
  intros first second.
  destruct (@DoRequest_reuses_kept_connection _ sample.xml_package sample.os
              sample.socket_client "<ns:logon/>" "<ns:logoff/>"
              (sample.response 200 ["keep-alive"])
              [Responds (sample.response 200 ["close"])]
              sample.destination sample.destination 1 (map inl (seq 2 7)))
    as (Hidle & _ & _ & Hnext & _).
  - reflexivity.
  - simpl. lia.
  - reflexivity.
  - reflexivity.
  - split; [exact Hidle | exact Hnext].
Defined.
